(** * ascii-img-render: layout geometry, argument parsing and rasterization

    A shallow embedding of [ascii-img-render.py] and the properties of its
    colour parser, resolution parser, preset table, grid fitting, output-path
    fallback and drawing loop.

    Conventions.
    - Python [int] is unbounded: it is [Z].  [a // b] is [Z.div] guarded by
      the [ZeroDivisionError] that Python raises for [b = 0].
    - Python [str] is [string]; a character [ascii] stands for the code point
      with the same number, so the model covers the code points U+0000 to
      U+00FF.
    - A raised exception is the [Raise] case of [result]; the script itself,
      which prints and calls [sys.exit], runs in the monad [M] of section
      "The script". *)

From Stdlib Require Import ZArith List String Ascii Bool Lia DecimalString.
Import ListNotations.

Local Open Scope string_scope.
Local Open Scope Z_scope.

(* ===================================================================== *)
(** ** Exceptions *)
(* ===================================================================== *)

(** The [ValueError]s that can arise in the script. *)
Inductive value_error : Type :=
| InvalidLiteral (base : Z) (literal : string)
    (* invalid literal for int() with base <base>: <literal> *)
| ExceedsDigitLimit
    (* Exceeds the limit (4300 digits) for integer string conversion *)
| NotEnoughValues (expected got : nat)
    (* not enough values to unpack *)
| TooManyValues (expected : nat)
    (* too many values to unpack *)
| NegativeImageSize
    (* Width and height must be >= 0 *)
| OtherValueError (msg : string).

Inductive exception : Type :=
| ArgumentTypeError (msg : string)
| ValueError (e : value_error)
| KeyError (key : string)
| ZeroDivisionError
| CalledProcessError (cmd : list string) (returncode : Z)
| FileNotFoundError (what : string)
| PermissionError (msg : string)
| OSError (msg : string)
| TypeError (msg : string)
| OtherException (msg : string).

Inductive result (A : Type) : Type :=
| Ok (a : A)
| Raise (e : exception).
Arguments Ok {A} a.
Arguments Raise {A} e.

Definition rbind {A B} (r : result A) (k : A -> result B) : result B :=
  match r with
  | Ok a => k a
  | Raise e => Raise e
  end.

Declare Scope result_scope.
Delimit Scope result_scope with result.
Notation "x <- r ;; k" := (rbind r (fun x => k))
  (at level 61, r at next level, right associativity) : result_scope.

(** [try: body  except Exception: handler]: every exception of the model is
    a subclass of [Exception]. *)
Definition try_except {A} (body : result A) (handler : exception -> result A)
  : result A :=
  match body with
  | Ok a => Ok a
  | Raise e => handler e
  end.

(** [mapM f xs]: evaluate [f] on the elements from left to right and stop at
    the first exception, as a generator expression consumed by [tuple]. *)
Fixpoint mapM {A B} (f : A -> result B) (xs : list A) : result (list B) :=
  match xs with
  | [] => Ok []
  | x :: xs' =>
      (y <- f x ;; ys <- mapM f xs' ;; Ok (y :: ys))%result
  end.

(* ===================================================================== *)
(** ** Python built-ins used by the script *)
(* ===================================================================== *)

Module Py.

Definition code (c : ascii) : N := N_of_ascii c.

Definition in_range (lo hi : N) (c : ascii) : bool :=
  ((lo <=? code c) && (code c <=? hi))%N.

(** [str.lower] on one code point below U+0100: the ASCII capitals and the
    Latin-1 capitals (U+00C0..U+00DE without the multiplication sign) move
    up by 32. *)
Definition lower_char (c : ascii) : ascii :=
  if in_range 65 90 c || (in_range 192 222 c && negb (code c =? 215)%N)
  then ascii_of_N (code c + 32)
  else c.

Fixpoint lower (s : string) : string :=
  match s with
  | EmptyString => EmptyString
  | String c r => String (lower_char c) (lower r)
  end.

(** [s.split(sep)] for a separator of one character: always at least one
    part, empty parts kept. *)
Fixpoint split (s : string) (sep : ascii) : list string :=
  match s with
  | EmptyString => [EmptyString]
  | String c r =>
      if Ascii.eqb c sep then EmptyString :: split r sep
      else match split r sep with
           | p :: ps => String c p :: ps
           | [] => [String c EmptyString]
           end
  end.

(** [s.lstrip(ch)] for a set of one character. *)
Fixpoint lstrip (s : string) (ch : ascii) : string :=
  match s with
  | String c r => if Ascii.eqb c ch then lstrip r ch else s
  | EmptyString => EmptyString
  end.

(** [s.rstrip(ch)] for a set of one character. *)
Fixpoint rstrip (s : string) (ch : ascii) : string :=
  match s with
  | EmptyString => EmptyString
  | String c r =>
      match rstrip r ch with
      | EmptyString => if Ascii.eqb c ch then EmptyString else String c EmptyString
      | r' => String c r'
      end
  end.

Definition len (s : string) : nat := String.length s.

(** [c * 2] for a character [c]. *)
Definition twice (c : ascii) : string := String c (String c EmptyString).

(** [sep.join(parts)]. *)
Definition join (sep : string) (parts : list string) : string :=
  String.concat sep parts.

(** [s[i:j]] for [0 <= i <= j]; out-of-range bounds are clipped. *)
Definition slice (s : string) (i j : nat) : string := substring i (j - i) s.

(** [str(n)] and the [{n}] of an f-string, for an [int]. *)
Definition str_of_int (n : Z) : string := NilZero.string_of_int (Z.to_int n).

(** [enumerate(xs)]. *)
Fixpoint enumerate_from {A} (i : Z) (xs : list A) : list (Z * A) :=
  match xs with
  | [] => []
  | x :: xs' => (i, x) :: enumerate_from (i + 1) xs'
  end.
Definition enumerate {A} (xs : list A) : list (Z * A) := enumerate_from 0 xs.

(** [a // b]. *)
Definition floordiv (a b : Z) : result Z :=
  if b =? 0 then Raise ZeroDivisionError else Ok (a / b).

(** *** [int(s)] and [int(s, 16)] *)

(** The white space [int] skips around a literal: tab, line feed, vertical
    tab, form feed, carriage return, space, and (after the conversion of
    Unicode space to ASCII space) U+0085 and U+00A0. *)
Definition is_int_space (c : ascii) : bool :=
  in_range 9 13 c || (code c =? 32)%N || (code c =? 133)%N || (code c =? 160)%N.

(** Value of a character as a digit: [0-9], then [a-z] and [A-Z] as 10..35. *)
Definition digit_value (c : ascii) : option Z :=
  if in_range 48 57 c then Some (Z.of_N (code c) - 48)
  else if in_range 97 122 c then Some (Z.of_N (code c) - 97 + 10)
  else if in_range 65 90 c then Some (Z.of_N (code c) - 65 + 10)
  else None.

Definition is_digit (base : Z) (c : ascii) : bool :=
  match digit_value c with
  | Some d => d <? base
  | None => false
  end.

Definition is_underscore (c : ascii) : bool := (code c =? 95)%N.

Fixpoint skip_space (s : string) : string :=
  match s with
  | String c r => if is_int_space c then skip_space r else s
  | EmptyString => EmptyString
  end.

(** Scan the run of digits and underscores at the front of [s].  [prev_us]
    tells that the previous character was an underscore; two underscores in
    a row and an underscore at the end of the run are errors.  The result is
    the value, the number of digits and the rest of the string. *)
Fixpoint scan_digits (base : Z) (s : string) (prev_us : bool)
         (acc : Z) (digits : nat) : option (Z * nat * string) :=
  let stop := if prev_us then None else Some (acc, digits, s) in
  match s with
  | EmptyString => stop
  | String c r =>
      if is_underscore c then
        if prev_us then None else scan_digits base r true acc digits
      else
        match digit_value c with
        | Some d =>
            if d <? base
            then scan_digits base r false (acc * base + d) (S digits)
            else stop
        | None => stop
        end
  end.

(** [sys.get_int_max_str_digits()], which bounds the digits of a literal in
    a base that is not a power of two. *)
Definition int_max_str_digits : nat := 4300.

(** The sign of a literal. *)
Definition take_sign (s : string) : Z * string :=
  match s with
  | String c r =>
      if Ascii.eqb c "+" then (1, r)
      else if Ascii.eqb c "-" then (-1, r)
      else (1, s)
  | EmptyString => (1, s)
  end.

(** In base 16 a literal may start with [0x] or [0X], and one underscore may
    follow that prefix. *)
Definition take_prefix (base : Z) (s : string) : string :=
  match s with
  | String c0 (String c1 r) =>
      if (base =? 16) && Ascii.eqb c0 "0"
         && (Ascii.eqb c1 "x" || Ascii.eqb c1 "X")
      then match r with
           | String c2 r' => if is_underscore c2 then r' else r
           | EmptyString => r
           end
      else s
  | _ => s
  end.

Definition starts_with_underscore (s : string) : bool :=
  match s with
  | String c _ => is_underscore c
  | EmptyString => false
  end.

(** [int(s, base)] for base 10 or 16: white space, a sign, the base prefix,
    digits with single underscores between them, white space.  This is
    [int] on the strings of the model, whose characters are below U+0100;
    on other strings [int] reads the decimal digits of every script and
    more kinds of white space. *)
Definition int_literal (base : Z) (s : string) : result Z :=
  let invalid := Raise (ValueError (InvalidLiteral base s)) in
  let (sign, s1) := take_sign (skip_space s) in
  let s2 := take_prefix base s1 in
  if starts_with_underscore s2 then invalid
  else
    match scan_digits base s2 false 0 0 with
    | None => invalid
    | Some (v, digits, rest) =>
        match digits with
        | O => invalid
        | _ =>
            if negb (base =? 16) && (int_max_str_digits <? digits)%nat
            then Raise (ValueError ExceedsDigitLimit)
            else match skip_space rest with
                 | EmptyString => Ok (sign * v)
                 | _ => invalid
                 end
        end
    end.

(** [int(s)]. *)
Definition int (s : string) : result Z := int_literal 10 s.

(** [int(s, 16)]. *)
Definition int16 (s : string) : result Z := int_literal 16 s.

(** [d[key]] on a dict given by its items in insertion order. *)
Fixpoint getitem {V} (d : list (string * V)) (key : string) : result V :=
  match d with
  | [] => Raise (KeyError key)
  | (k, v) :: d' => if String.eqb k key then Ok v else getitem d' key
  end.

(** [d.keys()]. *)
Definition keys {V} (d : list (string * V)) : list string := map fst d.

(** [x in xs] for strings. *)
Definition contains (xs : list string) (x : string) : bool :=
  existsb (String.eqb x) xs.

End Py.

(* ===================================================================== *)
(** ** The module-level definitions of the script *)
(* ===================================================================== *)

Local Open Scope result_scope.

(** [PRESETS = {'1080p': (1920, 1080), '720p': (1280, 720), '4k': (3840, 2160)}] *)
Definition PRESETS : list (string * (Z * Z)) :=
  [ ("1080p", (1920, 1080));
    ("720p",  (1280, 720));
    ("4k",    (3840, 2160)) ].

(** [w, h = map(int, parts)]: the iterator is asked for a first and a second
    item, then once more to see that it is exhausted. *)
Definition unpack_two_ints (parts : list string) : result (Z * Z) :=
  match parts with
  | [] => Raise (ValueError (NotEnoughValues 2 0))
  | p0 :: rest0 =>
      w <- Py.int p0 ;;
      match rest0 with
      | [] => Raise (ValueError (NotEnoughValues 2 1))
      | p1 :: rest1 =>
          h <- Py.int p1 ;;
          match rest1 with
          | [] => Ok (w, h)
          | p2 :: _ => _ <- Py.int p2 ;; Raise (ValueError (TooManyValues 2))
          end
      end
  end.

Definition resolution_message : string :=
  "Resolution must be in format WIDTHxHEIGHT, e.g. 1920x1080".

(** [parse_resolution(res_str)], lines 37-44. *)
Definition parse_resolution (res_str : string) : result (Z * Z) :=
  try_except
    (unpack_two_ints (Py.split (Py.lower res_str) "x"))
    (fun _ => Raise (ArgumentTypeError resolution_message)).

(** [hex_to_rgb(hex_str)], lines 46-52.  The tuple is a list of three
    integers. *)
Definition hex_to_rgb (hex_str : string) : result (list Z) :=
  let hex_str := Py.lstrip hex_str "#" in
  let hex_str :=
    if (Py.len hex_str =? 3)%nat
    then Py.join "" (map Py.twice (list_ascii_of_string hex_str))
    else hex_str in
  if negb (Py.len hex_str =? 6)%nat
  then Raise (ArgumentTypeError ("Invalid color format: " ++ hex_str))
  else mapM (fun i => Py.int16 (Py.slice hex_str i (i + 2))) [0; 2; 4]%nat.

(* ===================================================================== *)
(** ** Paths ([pathlib.Path] on POSIX) *)
(* ===================================================================== *)

Module Path.

(** A path is its root ([""], ["/"] or ["//"]) and its components. *)
Record t : Type := mk { root : string; parts : list string }.

Fixpoint leading_slashes (s : string) : nat :=
  match s with
  | String "/" r => S (leading_slashes r)
  | _ => O
  end.

Definition is_component (p : string) : bool :=
  negb (String.eqb p "") && negb (String.eqb p ".").

(** [Path(s)]: empty and ["."] components vanish; exactly two leading
    slashes are a root of their own. *)
Definition of_string (s : string) : t :=
  let r := match leading_slashes s with
           | O => ""
           | 2%nat => "//"
           | _ => "/"
           end in
  mk r (filter is_component (Py.split s "/")).

(** [str(p)]. *)
Definition to_string (p : t) : string :=
  match root p, parts p with
  | EmptyString, [] => "."
  | r, ps => r ++ Py.join "/" ps
  end.

(** [p.parent]. *)
Definition parent (p : t) : t :=
  match parts p with
  | [] => p
  | ps => mk (root p) (removelast ps)
  end.

(** [p.name]. *)
Definition name (p : t) : string := last (parts p) "".

(** [p / s] for a string [s]. *)
Definition join (p : t) (s : string) : t :=
  let q := of_string s in
  match root q with
  | EmptyString => mk (root p) (parts p ++ parts q)%list
  | _ => q
  end.

End Path.

(* ===================================================================== *)
(** ** Images ([PIL.Image], [PIL.ImageDraw]) *)
(* ===================================================================== *)

(** A loaded font: the file it was loaded from and its point size. *)
Record Font : Type := { font_file : string; font_size : Z }.

(** One call of [draw.text(xy, text, font=font, fill=fill)]. *)
Record TextCall : Type :=
  { tc_xy : Z * Z; tc_text : string; tc_font : Font; tc_fill : list Z }.

(** An image is its mode, size and fill colour, and the text drawn on it so
    far, oldest first. *)
Record Image : Type :=
  { im_mode : string; im_size : Z * Z; im_color : list Z;
    im_texts : list TextCall }.

(** [draw.text(xy, text, font=font, fill=fill)] on the image [img] that
    [draw] was made for. *)
Definition draw_text (img : Image) (xy : Z * Z) (text : string)
           (font : Font) (fill : list Z) : Image :=
  {| im_mode := im_mode img; im_size := im_size img;
     im_color := im_color img;
     im_texts := (im_texts img ++
       [{| tc_xy := xy; tc_text := text; tc_font := font;
           tc_fill := fill |}])%list |}.

(* ===================================================================== *)
(** ** The script *)
(* ===================================================================== *)

(** What a run does to the outside. *)
Inductive event : Type :=
| Stdout (text : string)
| Stderr (text : string)
| ArgparseError                      (* usage and error message on stderr *)
| ArgparseHelp                       (* the help of argparse on stdout *)
| Subprocess (cmd : list string)     (* subprocess.run(cmd, ...) *)
| Saved (path : Path.t) (img : Image).

(** How a computation ends: with a value, with an exception that nothing
    caught, or with [sys.exit(code)]. *)
Inductive outcome (A : Type) : Type :=
| Val (a : A)
| Exc (e : exception)
| SysExit (code : Z).
Arguments Val {A} a.
Arguments Exc {A} e.
Arguments SysExit {A} code.

(** Computations of the script: the events so far are threaded through. *)
Definition M (A : Type) : Type := list event -> outcome A * list event.

Definition ret {A} (a : A) : M A := fun log => (Val a, log).

Definition bind {A B} (m : M A) (k : A -> M B) : M B :=
  fun log =>
    match m log with
    | (Val a, log') => k a log'
    | (Exc e, log') => (Exc e, log')
    | (SysExit c, log') => (SysExit c, log')
    end.

Definition emit (e : event) : M unit := fun log => (Val tt, (log ++ [e])%list).
Definition raise {A} (e : exception) : M A := fun log => (Exc e, log).
Definition sys_exit {A} (code : Z) : M A := fun log => (SysExit code, log).

Definition lift {A} (r : result A) : M A :=
  match r with
  | Ok a => ret a
  | Raise e => raise e
  end.

(** [try: body  except <handles>: handler]. [sys.exit] is not an
    [Exception] and passes through. *)
Definition try_catch {A} (body : M A) (handles : exception -> bool)
           (handler : exception -> M A) : M A :=
  fun log =>
    match body log with
    | (Exc e, log') => if handles e then handler e log' else (Exc e, log')
    | r => r
    end.

Declare Scope script_scope.
Delimit Scope script_scope with script.
Notation "x <- m ;; k" := (bind m (fun x => k))
  (at level 61, m at next level, right associativity) : script_scope.
Notation "m ;; k" := (bind m (fun _ => k))
  (at level 61, right associativity) : script_scope.

(** The outside of the script: the file system, the font library, the two
    external tools.  Each field answers one call of the script. *)
Record World : Type :=
  { path_exists : Path.t -> bool;                 (* p.exists() *)
    path_is_file : Path.t -> bool;                (* p.is_file() *)
    path_is_dir : Path.t -> bool;                 (* p.is_dir() *)
    access_W_OK : Path.t -> bool;                 (* os.access(p, os.W_OK) *)
    cwd : Path.t;                                 (* Path.cwd() *)
    truetype : string -> Z -> result Font;        (* ImageFont.truetype *)
    image_new_error : string -> Z * Z -> list Z -> option exception;
                                                  (* what stops Image.new *)
    textbbox : Z * Z -> string -> Font -> Z * Z * Z * Z;  (* draw.textbbox *)
    tmpdir : string;                              (* TemporaryDirectory() *)
    returncode : list string -> result Z;         (* the child process *)
    read_text : Path.t -> result string;          (* p.read_text() *)
    save : Path.t -> Image -> result unit;        (* img.save(p) *)
    stdout_write : string -> result unit;         (* print(text) *)
    exc_str : exception -> string }.              (* the {e} of an f-string *)

(** [Image.new(mode, size, color=color)].  A negative width or height is a
    [ValueError].  For the other sizes the world tells what stops the call,
    if anything does: a side of 2^31 or more is an [OverflowError], and an
    image too large for the memory cannot be made.  When nothing stops it,
    the image has that mode, size and colour and no text. *)
Definition Image_new (w : World) (mode : string) (size : Z * Z)
           (color : list Z) : result Image :=
  if (fst size <? 0) || (snd size <? 0)
  then Raise (ValueError NegativeImageSize)
  else match image_new_error w mode size color with
       | Some e => Raise e
       | None => Ok {| im_mode := mode; im_size := size; im_color := color;
                       im_texts := [] |}
       end.

(** The parsed arguments, [args]. *)
Record Namespace : Type :=
  { input : string;
    preset : option string;
    resolution : option (Z * Z);
    font : string;
    size : Z;
    color : list Z;
    bg : list Z;
    braille : bool;
    output : string }.

(** The options as given on the command line, before [parse_args], each
    given once at most.  A request for help is no field of it: see
    [Invocation]. *)
Record CommandLine : Type :=
  { opt_input : option string;
    opt_preset : option string;
    opt_resolution : option string;
    opt_font : option string;
    opt_size : option string;
    opt_color : option string;
    opt_bg : option string;
    opt_braille : bool;
    opt_output : option string }.

(** A command line either has no [-h] or [--help] and is its options, or
    has one and is the options that stand before the first: argparse reads
    the options from left to right and, at the help option, prints the help
    and leaves, without a look at what follows. *)
Inductive Invocation : Type :=
| Plain (cl : CommandLine)
| HelpAfter (before : CommandLine).

Section Script.

Variable w : World.

Local Open Scope script_scope.

(** [print(text)]: the write on the standard output can fail (a closed
    pipe, a full device), else the text is out. *)
Definition print (text : string) : M unit :=
  lift (stdout_write w text) ;; emit (Stdout text).

(** [print(text, file=sys.stderr)]. *)
Definition eprint (text : string) : M unit := emit (Stderr text).

Definition when (c : bool) (m : M unit) : M unit := if c then m else ret tt.

(** *** [parser.parse_args()], lines 55-68 *)

(** [parser.error]: usage and message on the error stream, exit status 2.
    The text of the message is not modelled. *)
Definition parser_error {A} : M A := emit ArgparseError ;; sys_exit 2.

(** argparse applies the [type] function of an option to its string and
    turns [ArgumentTypeError], [TypeError] and [ValueError] into a parser
    error. *)
Definition get_value {A} (type_func : string -> result A)
           (arg_string : string) : M A :=
  match type_func arg_string with
  | Ok a => ret a
  | Raise (ArgumentTypeError _) => parser_error
  | Raise (ValueError _) => parser_error
  | Raise (TypeError _) => parser_error
  | Raise e => raise e
  end.

Definition required {A} (o : option A) : M A :=
  match o with
  | Some a => ret a
  | None => parser_error
  end.

Definition with_default (o : option string) (default : string) : string :=
  match o with
  | Some s => s
  | None => default
  end.

(** The options are checked here in one fixed order; a command line with
    several faults ends with a parser error whichever is found first. *)
Definition parse_args (cl : CommandLine) : M Namespace :=
  input_ <- required (opt_input cl) ;;
  preset_ <- match opt_preset cl with
             | Some p =>
                 (* choices=PRESETS.keys() *)
                 if Py.contains (Py.keys PRESETS) p then ret (Some p)
                 else parser_error
             | None => ret None
             end ;;
  resolution_ <- match opt_resolution cl with
                 | Some r => v <- get_value parse_resolution r ;; ret (Some v)
                 | None => ret None
                 end ;;
  (* add_mutually_exclusive_group(required=True) *)
  match preset_, resolution_ with
  | Some _, Some _ => parser_error
  | None, None => parser_error
  | _, _ => ret tt
  end ;;
  size_ <- match opt_size cl with
           | Some s => get_value Py.int s
           | None => ret 12
           end ;;
  color_ <- get_value hex_to_rgb (with_default (opt_color cl) "ffffff") ;;
  bg_ <- get_value hex_to_rgb (with_default (opt_bg cl) "000000") ;;
  output_ <- required (opt_output cl) ;;
  ret {| input := input_; preset := preset_; resolution := resolution_;
         font := with_default (opt_font cl) "TerminusTTF.ttf";
         size := size_; color := color_; bg := bg_;
         braille := opt_braille cl; output := output_ |}.

(** *** Input file, lines 70-77 *)

Definition check_input (args : Namespace) : M unit :=
  let input_path := Path.of_string (input args) in
  when (negb (path_exists w input_path))
       (eprint ("Input ASCII art file " ++ Path.to_string input_path
                ++ " not found") ;;
        sys_exit 1) ;;
  when (negb (path_is_file w input_path))
       (eprint (Path.to_string input_path ++ " is not a file") ;;
        sys_exit 1).

(** *** Canvas size, line 80:
    [canvas_w, canvas_h = PRESETS[args.preset] if args.preset else args.resolution] *)

Definition truthy (o : option string) : bool :=
  match o with
  | Some s => negb (String.eqb s "")
  | None => false
  end.

Definition canvas_size (args : Namespace) : result (Z * Z) :=
  (chosen <- (if truthy (preset args)
              then (v <- Py.getitem PRESETS (with_default (preset args) "") ;;
                    Ok (Some v))
              else Ok (resolution args)) ;;
   match chosen with
   | Some (canvas_w, canvas_h) => Ok (canvas_w, canvas_h)
   | None => Raise (TypeError "cannot unpack non-iterable NoneType object")
   end)%result.

(** *** Output path, lines 82-95 *)

Definition fallback_warning (parent fallback : Path.t) : string :=
  "No write permission in " ++ Path.to_string parent
  ++ ", saving to current directory instead: " ++ Path.to_string fallback.

Definition resolve_output (args : Namespace) : M Path.t :=
  let output_path := Path.of_string (output args) in
  (* [output_path.parent or Path('.')]: a path object is always true *)
  let parent := Path.parent output_path in
  when (negb (path_exists w parent))
       (eprint ("Output directory " ++ Path.to_string parent
                ++ " does not exist") ;;
        sys_exit 1) ;;
  output_path <-
    (if negb (access_W_OK w parent) then
       let fallback := Path.join (cwd w) (Path.name output_path) in
       eprint (fallback_warning parent fallback) ;;
       ret fallback
     else ret output_path) ;;
  when (path_exists w output_path && path_is_dir w output_path)
       (eprint ("Invalid path: " ++ Path.to_string output_path
                ++ " is a directory") ;;
        sys_exit 1) ;;
  ret output_path.

(** *** Font, lines 97-102 *)

Definition load_font (args : Namespace) : M Font :=
  try_catch (lift (truetype w (font args) (size args)))
            (fun _ => true)
            (fun e =>
               eprint ("Failed to load font " ++ font args ++ ": "
                       ++ exc_str w e) ;;
               sys_exit 1).

(** *** The two external tools, lines 113-128 *)

Definition resize_cmd (args : Namespace) (canvas_w canvas_h : Z)
           (cropped : Path.t) : list string :=
  let geometry := Py.str_of_int canvas_w ++ "x" ++ Py.str_of_int canvas_h in
  ["magick"; input args; "-resize"; geometry ++ "^"; "-gravity"; "center";
   "-extent"; geometry; Path.to_string cropped].

Definition ascii_cmd (args : Namespace) (canvas_w canvas_h char_w char_h : Z)
           (tmpdir_ : string) (cropped : Path.t) : result (list string) :=
  (cols <- Py.floordiv canvas_w char_w ;;
   rows <- Py.floordiv canvas_h char_h ;;
   let cmd := ["ascii-image-converter"; "--only-save"; "--dimensions";
               Py.str_of_int cols ++ "," ++ Py.str_of_int rows;
               "--save-txt"; tmpdir_; Path.to_string cropped] in
   Ok (if braille args then (cmd ++ ["--braille"; "--dither"])%list
       else cmd))%result.

(** [subprocess.run(cmd, check=True)]. *)
Definition subprocess_run (cmd : list string) : M unit :=
  emit (Subprocess cmd) ;;
  rc <- lift (returncode w cmd) ;;
  if rc =? 0 then ret tt else raise (CalledProcessError cmd rc).

Definition is_CalledProcessError (e : exception) : bool :=
  match e with
  | CalledProcessError _ _ => true
  | _ => false
  end.

Definition convert (args : Namespace) (canvas_w canvas_h char_w char_h : Z)
  : M (list string) :=
  let tmpdir_ := tmpdir w in
  let cropped := Path.join (Path.of_string tmpdir_) "cropped" in
  let resize_cmd_ := resize_cmd args canvas_w canvas_h cropped in
  ascii_cmd_ <- lift (ascii_cmd args canvas_w canvas_h char_w char_h
                                tmpdir_ cropped) ;;
  try_catch (subprocess_run resize_cmd_ ;; subprocess_run ascii_cmd_)
            is_CalledProcessError
            (fun e =>
               eprint ("Command execution error: " ++ exc_str w e) ;;
               sys_exit 1) ;;
  let txt_path := Path.join (Path.of_string tmpdir_) "cropped-ascii-art.txt" in
  text <- lift (read_text w txt_path) ;;
  ret (Py.split (Py.rstrip text "010") "010").

(** *** Drawing, lines 130-132 *)

Definition draw_ascii_art (img : Image) (lines : list string) (char_h : Z)
           (font_ : Font) (fg : list Z) : Image :=
  fold_left (fun im '(i, line) => draw_text im (0, i * char_h) line font_ fg)
            (Py.enumerate lines) img.

(** *** Saving, lines 134-146 *)

Definition is_PermissionError (e : exception) : bool :=
  match e with
  | PermissionError _ => true
  | _ => false
  end.

Definition is_ValueError (e : exception) : bool :=
  match e with
  | ValueError _ => true
  | _ => false
  end.

(** [FileNotFoundError] and [PermissionError] are subclasses of [OSError]. *)
Definition is_OSError (e : exception) : bool :=
  match e with
  | OSError _ | FileNotFoundError _ | PermissionError _ => true
  | _ => false
  end.

Definition newline : string := String "010" EmptyString.

Definition save_image (output_path : Path.t) (img : Image) : M unit :=
  let p := Path.to_string output_path in
  try_catch
    (try_catch
       (try_catch
          (lift (save w output_path img) ;;
           emit (Saved output_path img) ;;
           print ("Successfully saved at " ++ p))
          is_PermissionError
          (fun e =>
             eprint ("Save error: " ++ exc_str w e ++ newline
                     ++ "Make sure you have write permissions for " ++ p) ;;
             sys_exit 1))
       is_ValueError
       (fun e =>
          eprint ("File format error: " ++ exc_str w e
                  ++ ". Make sure the filename ends with .png") ;;
          sys_exit 1))
    is_OSError
    (fun e =>
       eprint ("Error saving file " ++ p ++ ": " ++ exc_str w e) ;;
       sys_exit 1).

(** *** The body of the script after [parse_args], lines 70-146 *)

Definition render (args : Namespace) (canvas_w canvas_h : Z)
           (output_path : Path.t) : M unit :=
  font_ <- load_font args ;;
  let fg := color args in
  let bg_color := bg args in
  img <- lift (Image_new w "RGB" (canvas_w, canvas_h) bg_color) ;;
  let '(x0, y0, x1, y1) := textbbox w (0, 0) "A" font_ in
  let char_w := x1 - x0 in
  let char_h := y1 - y0 in
  lines <- convert args canvas_w canvas_h char_w char_h ;;
  save_image output_path (draw_ascii_art img lines char_h font_ fg).

Definition main (args : Namespace) : M unit :=
  check_input args ;;
  canvas <- lift (canvas_size args) ;;
  let '(canvas_w, canvas_h) := canvas in
  output_path <- resolve_output args ;;
  render args canvas_w canvas_h output_path.

(** The whole script, on a command line that asks for no help. *)
Definition script (cl : CommandLine) : M unit :=
  args <- parse_args cl ;;
  main args.

(** *** The help option of line 55 ([add_help] is on) *)

(** What argparse checks of the options that it reads before a help
    option: the choices of the preset, the [type] function of each option
    that is given, and that the preset and the resolution are not both
    there.  No default is converted and no required option is asked for,
    since that is done after the last option only. *)
Definition read_options (before : CommandLine) : M unit :=
  preset_ <- match opt_preset before with
             | Some p =>
                 if Py.contains (Py.keys PRESETS) p then ret (Some p)
                 else parser_error
             | None => ret None
             end ;;
  resolution_ <- match opt_resolution before with
                 | Some r => v <- get_value parse_resolution r ;; ret (Some v)
                 | None => ret None
                 end ;;
  match preset_, resolution_ with
  | Some _, Some _ => parser_error
  | _, _ => ret tt
  end ;;
  match opt_size before with
  | Some s => _ <- get_value Py.int s ;; ret tt
  | None => ret tt
  end ;;
  match opt_color before with
  | Some s => _ <- get_value hex_to_rgb s ;; ret tt
  | None => ret tt
  end ;;
  match opt_bg before with
  | Some s => _ <- get_value hex_to_rgb s ;; ret tt
  | None => ret tt
  end.

(** The help action: the help on the standard output, exit status 0. *)
Definition print_help {A} : M A := emit ArgparseHelp ;; sys_exit 0.

(** [parser.parse_args()] on any command line. *)
Definition parse_invocation (inv : Invocation) : M Namespace :=
  match inv with
  | Plain cl => parse_args cl
  | HelpAfter before => read_options before ;; print_help
  end.

(** The whole script on any command line. *)
Definition program (inv : Invocation) : M unit :=
  args <- parse_invocation inv ;;
  main args.

End Script.

(* ===================================================================== *)
(** ** Concrete worlds and command lines, for the examples *)
(* ===================================================================== *)

Module Sample.

Definition path_in (names : list string) (p : Path.t) : bool :=
  Py.contains names (Path.to_string p).

(** A small file system: the picture [art.png], the directories [.], [/ro]
    and [/home/u], of which [/ro] is read-only; a font whose capital A
    measures 20 by 25 pixels; two tools that succeed and leave two rows of
    five characters. *)
Definition world : World :=
  {| path_exists := path_in ["art.png"; "."; "/ro"; "/home/u"];
     path_is_file := path_in ["art.png"];
     path_is_dir := path_in ["."; "/ro"; "/home/u"];
     access_W_OK := path_in ["."; "/home/u"];
     cwd := Path.of_string "/home/u";
     truetype := fun file pts => Ok {| font_file := file; font_size := pts |};
     image_new_error := fun _ _ _ => None;
     textbbox := fun _ _ _ => (0, 3, 20, 28);
     tmpdir := "/tmp/tmpk3v9";
     returncode := fun _ => Ok 0;
     read_text := fun _ => Ok ("#####" ++ newline ++ "@@@@@" ++ newline);
     save := fun _ _ => Ok tt;
     stdout_write := fun _ => Ok tt;
     exc_str := fun _ => "error" |}.


(** [-i art.png -r <res> -o <out>]. *)
Definition command_line (res out : string) : CommandLine :=
  {| opt_input := Some "art.png"; opt_preset := None;
     opt_resolution := Some res; opt_font := None; opt_size := None;
     opt_color := None; opt_bg := None; opt_braille := false;
     opt_output := Some out |}.

(** The arguments [parse_args] makes of [-i art.png -r 100x50 -o <out>]. *)
Definition args (out : string) : Namespace :=
  {| input := "art.png"; preset := None; resolution := Some (100, 50);
     font := "TerminusTTF.ttf"; size := 12;
     color := [255; 255; 255]; bg := [0; 0; 0];
     braille := false; output := out |}.

(** [-i art.png -p <name> -o out.png], after [parse_args]. *)
Definition preset_args (name : string) : Namespace :=
  {| input := "art.png"; preset := Some name; resolution := None;
     font := "TerminusTTF.ttf"; size := 12;
     color := [255; 255; 255]; bg := [0; 0; 0];
     braille := false; output := "out.png" |}.

End Sample.

(* ===================================================================== *)
(** ** Predicates and abbreviations used in the statements *)
(* ===================================================================== *)

(** A hexadecimal digit, of either case. *)
Definition is_hex (c : ascii) : bool := Py.is_digit 16 c.

(** The token with each character doubled in place, as the shorthand of a
    colour is described: ["f0a"] becomes ["ff00aa"]. *)
Fixpoint double_digits (t : string) : string :=
  match t with
  | EmptyString => EmptyString
  | String c r => String c (String c (double_digits r))
  end.

(** The 256 characters, for the facts that are settled by running the
    built-ins on every character. *)
Definition all_ascii : list ascii := map ascii_of_nat (seq 0 256).

(** [r] is the value [v]. *)
Definition is_ok_with (r : result Z) (v : Z) : bool :=
  match r with
  | Ok z => z =? v
  | Raise _ => false
  end.

(** A hexadecimal digit of value [v], doubled, reads as [17 * v]. *)
Definition twice_check (c : ascii) : bool :=
  negb (is_hex c) ||
  match Py.digit_value c with
  | Some v => (0 <=? v) && (v <=? 15)
              && is_ok_with (Py.int16 (Py.twice c)) (17 * v)
  | None => false
  end.

(** The marker [#] is no hexadecimal digit. *)
Definition hash_check (c : ascii) : bool :=
  negb (is_hex c) || negb (Ascii.eqb c "#").

(** A character that is no hexadecimal digit, no sign and no white space. *)
Definition foreign (c : ascii) : bool :=
  negb (is_hex c) && negb (Py.is_int_space c)
  && negb (Ascii.eqb c "+") && negb (Ascii.eqb c "-").

(** A group of two characters. *)
Definition pair (a b : ascii) : string := String a (String b EmptyString).

(** [r] is an exception. *)
Definition is_raise {A} (r : result A) : bool :=
  match r with
  | Ok _ => false
  | Raise _ => true
  end.

(** [int(group, 16)] fails on a group with a foreign character. *)
Definition foreign_check (a b : ascii) : bool :=
  negb (foreign a || foreign b) || is_raise (Py.int16 (pair a b)).

(** Lowering a lowered character changes nothing. *)
Definition lower_check (c : ascii) : bool :=
  Ascii.eqb (Py.lower_char (Py.lower_char c)) (Py.lower_char c).

(** A decimal digit, and the number that a string of decimal digits
    denotes. *)
Definition is_decimal (c : ascii) : bool := Py.in_range 48 57 c.

Definition decimal_step (acc : Z) (c : ascii) : Z :=
  acc * 10 + (Z.of_N (Py.code c) - 48).

Definition decimal_value (s : string) : Z :=
  fold_left decimal_step (list_ascii_of_string s) 0.

(** A plain decimal numeral: one to 4300 decimal digits. *)
Definition is_numeral (s : string) : bool :=
  forallb is_decimal (list_ascii_of_string s)
  && (1 <=? String.length s)%nat
  && (String.length s <=? Py.int_max_str_digits)%nat.

(** What the built-ins make of a decimal digit. *)
Definition decimal_check (c : ascii) : bool :=
  negb (is_decimal c)
  || (negb (Py.is_int_space c) && negb (Ascii.eqb c "+")
      && negb (Ascii.eqb c "-") && negb (Py.is_underscore c)
      && negb (Ascii.eqb c "x") && Ascii.eqb (Py.lower_char c) c
      && match Py.digit_value c with
         | Some d => (d =? Z.of_N (Py.code c) - 48) && (d <? 10)
         | None => false
         end).

(** Unfold the combinators of the monad of the script. *)
Ltac run_script :=
  cbv [bind emit lift ret raise sys_exit try_catch eprint print when
       subprocess_run].

(** The temporary picture, [Path(tmpdir) / 'cropped']. *)
Definition cropped_path (w : World) : Path.t :=
  Path.join (Path.of_string (tmpdir w)) "cropped".

(** The text file of the converter, [Path(tmpdir) / 'cropped-ascii-art.txt']. *)
Definition txt_path (w : World) : Path.t :=
  Path.join (Path.of_string (tmpdir w)) "cropped-ascii-art.txt".

(** The [--dimensions] argument for a grid of [cols] by [rows]. *)
Definition dimensions_arg (cols rows : Z) : string :=
  Py.str_of_int cols ++ "," ++ Py.str_of_int rows.

(** The call that the loop makes for row [i]. *)
Definition row_call (char_h : Z) (font_ : Font) (fg : list Z)
           (row : Z * string) : TextCall :=
  {| tc_xy := (0, fst row * char_h); tc_text := snd row;
     tc_font := font_; tc_fill := fg |}.



(** An event that reports a fault on the error stream. *)
Definition complaint (ev : event) : Prop :=
  match ev with
  | Stderr _ | ArgparseError => True
  | _ => False
  end.


(** A computation is tidy when it only adds events, leaves with
    [sys.exit] only with a status other than 0, and, when it goes on,
    has reported no fault other than the allowed ones. *)
Definition tidy {A} (allowed : event -> Prop) (m : M A) : Prop :=
  forall log,
  exists added,
    snd (m log) = (log ++ added)%list
    /\ match fst (m log) with
       | Val _ => forall ev, In ev added -> complaint ev -> allowed ev
       | Exc _ => True
       | SysExit c => c <> 0
       end.

(** A computation is fatal when it always ends the run with [sys.exit] and
    a status other than 0. *)
Definition fatal {A} (m : M A) : Prop :=
  forall log, exists added c,
    m log = (SysExit c, (log ++ added)%list) /\ c <> 0.

(** The value of a result, the exception left out. *)
Definition result_value {A} (r : result A) : option A :=
  match r with
  | Ok a => Some a
  | Raise _ => None
  end.

(** The value of a hexadecimal digit, and of a group of two of them. *)
Definition hex_digit (c : ascii) : Z :=
  match Py.digit_value c with
  | Some d => d
  | None => 0
  end.

Definition channel (a b : ascii) : Z := 16 * hex_digit a + hex_digit b.

(** [int(group, 16)] reads two hexadecimal digits as their channel, which
    is in 0..255. *)
Definition channel_check (a b : ascii) : bool :=
  negb (is_hex a && is_hex b)
  || (is_ok_with (Py.int16 (pair a b)) (channel a b)
      && (0 <=? channel a b) && (channel a b <=? 255)).

Definition option_Z_eqb (x y : option Z) : bool :=
  match x, y with
  | Some a, Some b => a =? b
  | None, None => true
  | _, _ => false
  end.

(** [int(group, 16)] reads a group and the lowered group alike. *)
Definition case_check (a b : ascii) : bool :=
  option_Z_eqb
    (result_value (Py.int16 (pair (Py.lower_char a) (Py.lower_char b))))
    (result_value (Py.int16 (pair a b))).

(** Lowering makes no marker and unmakes none. *)
Definition marker_check (c : ascii) : bool :=
  Bool.eqb (Ascii.eqb (Py.lower_char c) "#") (Ascii.eqb c "#").

(** [n] markers. *)
Fixpoint hashes (n : nat) : string :=
  match n with
  | O => EmptyString
  | S n' => String "#" (hashes n')
  end.

(** The tuple of three channels, when each was read. *)
Definition triple (r g b : option Z) : option (list Z) :=
  match r, g, b with
  | Some x, Some y, Some z => Some [x; y; z]
  | _, _, _ => None
  end.

(** [s] has no character [sep]. *)
Definition clean (sep : ascii) (s : string) : bool :=
  forallb (fun c => negb (Ascii.eqb c sep)) (list_ascii_of_string s).

(** The last character of a string. *)
Fixpoint last_char (s : string) : option ascii :=
  match s with
  | EmptyString => None
  | String c EmptyString => Some c
  | String _ r => last_char r
  end.

(** The rows that [convert] makes of the text of the converter's file:
    [text.rstrip('\n').split('\n')]. *)
Definition rows_of_text (text : string) : list string :=
  Py.split (Py.rstrip text "010") "010".

(** A file with one row per line, each line ended by a line feed. *)
Definition text_of_rows (rows : list string) : string :=
  String.concat "" (map (fun row => row ++ newline) rows).




Definition with_returncode (w : World) (f : list string -> result Z) : World :=
  {| path_exists := path_exists w; path_is_file := path_is_file w;
     path_is_dir := path_is_dir w; access_W_OK := access_W_OK w;
     cwd := cwd w; truetype := truetype w;
     image_new_error := image_new_error w; textbbox := textbbox w;
     tmpdir := tmpdir w; returncode := f;
     read_text := read_text w; save := save w;
     stdout_write := stdout_write w; exc_str := exc_str w |}.


(** An event that tells of success: the saved image or the line that the
    script prints on the standard output. *)
Definition product (ev : event) : Prop :=
  match ev with
  | Saved _ _ | Stdout _ => True
  | _ => False
  end.

(** A computation is quiet when it only adds events, none of them a
    product, and leaves with [sys.exit] only with a status in [S]. *)
Definition quiet {A} (S : Z -> Prop) (m : M A) : Prop :=
  forall log,
  exists added,
    snd (m log) = (log ++ added)%list
    /\ (forall ev, In ev added -> ~ product ev)
    /\ match fst (m log) with
       | SysExit c => S c
       | _ => True
       end.

(** The events of a run that did not reach its end: no line on the
    standard output, and an image saved only if the write of the success
    line failed. *)
Definition unfinished (w : World) (added : list event) : Prop :=
  (forall text, ~ In (Stdout text) added)
  /\ ((exists p img, In (Saved p img) added) ->
      exists text e, stdout_write w text = Raise e).

(** A computation is concluding when it only adds events and either ends
    with a value, having saved an image and reported it, or ends otherwise
    with the events of an unfinished run, and with a status in [S] when by
    [sys.exit]. *)
Definition concluding {A} (w : World) (S : Z -> Prop) (m : M A) : Prop :=
  forall log,
  exists added,
    snd (m log) = (log ++ added)%list
    /\ match fst (m log) with
       | Val _ => (exists p img, In (Saved p img) added)
                  /\ (exists text, In (Stdout text) added)
       | Exc _ => unfinished w added
       | SysExit c => S c /\ unfinished w added
       end.

(** A step of the argument parser either goes on with a value and no
    event, or ends in the parser error: usage on the error stream and
    status 2. *)
Definition parses {A} (m : M A) : Prop :=
  forall log,
    (exists a, m log = (Val a, log))
    \/ m log = (SysExit 2, (log ++ [ArgparseError])%list).

(** The three ends of the argument parser on a command line: the
    arguments and no event, the parser error, or the help. *)
Definition parser_returns (inv : Invocation) (log : list event) : Prop :=
  exists cl args, inv = Plain cl
                  /\ parse_invocation inv log = (Val args, log).

Definition parser_rejects (inv : Invocation) (log : list event) : Prop :=
  parse_invocation inv log = (SysExit 2, (log ++ [ArgparseError])%list).

Definition parser_helps (inv : Invocation) (log : list event) : Prop :=
  exists before, inv = HelpAfter before
                 /\ parse_invocation inv log
                    = (SysExit 0, (log ++ [ArgparseHelp])%list).

(** The exceptions of a [type] function that argparse turns into a parser
    error. *)
Definition argparse_handles (e : exception) : Prop :=
  match e with
  | ArgumentTypeError _ | ValueError _ | TypeError _ => True
  | _ => False
  end.

(** [-i art.png -o out.png] with the preset and resolution options as
    given. *)
Definition command_line_with (p r : option string) : CommandLine :=
  {| opt_input := Some "art.png"; opt_preset := p; opt_resolution := r;
     opt_font := None; opt_size := None; opt_color := None; opt_bg := None;
     opt_braille := false; opt_output := Some "out.png" |}.




(* ===================================================================== *)
(** ** Facts about the built-ins *)
(* ===================================================================== *)

Lemma in_all_ascii (c : ascii) : In c all_ascii.
Proof.
  rewrite <- (ascii_nat_embedding c).
  apply in_map, in_seq.
  pose proof (nat_ascii_bounded c). lia.
Qed.

(** A property of characters that a computation confirms on all 256 of
    them holds of every character. *)
Lemma for_all_ascii (p : ascii -> bool) :
  forallb p all_ascii = true -> forall c, p c = true.
Proof.
  intros H c. rewrite forallb_forall in H. apply H, in_all_ascii.
Qed.

Lemma for_all_ascii2 (p : ascii -> ascii -> bool) :
  forallb (fun a => forallb (p a) all_ascii) all_ascii = true ->
  forall a b, p a b = true.
Proof.
  intros H a b.
  apply (for_all_ascii (p a)).
  apply (for_all_ascii (fun a => forallb (p a) all_ascii) H).
Qed.

Lemma is_ok_with_true r v : is_ok_with r v = true -> r = Ok v.
Proof.
  destruct r as [z|e]; simpl; [|discriminate].
  intros H. apply Z.eqb_eq in H. now subst.
Qed.

Lemma twice_check_all (c : ascii) : twice_check c = true.
Proof. revert c. apply for_all_ascii. vm_compute. reflexivity. Qed.

(** A doubled hexadecimal digit [d] reads as [17 * d] in base 16. *)
Lemma int16_twice (c : ascii) :
  is_hex c = true ->
  exists v, 0 <= v <= 15 /\ Py.int16 (Py.twice c) = Ok (17 * v).
Proof.
  intros Hc. pose proof (twice_check_all c) as H.
  unfold twice_check in H. rewrite Hc in H. simpl in H.
  destruct (Py.digit_value c) as [v|]; [|discriminate].
  apply andb_prop in H. destruct H as [H Hv].
  apply andb_prop in H. destruct H as [H0 H15].
  exists v. split; [lia|]. now apply is_ok_with_true.
Qed.

Lemma hash_check_all (c : ascii) : hash_check c = true.
Proof. revert c. apply for_all_ascii. vm_compute. reflexivity. Qed.

Lemma is_hex_not_hash (c : ascii) : is_hex c = true -> Ascii.eqb c "#" = false.
Proof.
  intros Hc. pose proof (hash_check_all c) as H.
  unfold hash_check in H. rewrite Hc in H. simpl in H.
  now destruct (Ascii.eqb c "#").
Qed.

Lemma foreign_check_all (a b : ascii) : foreign_check a b = true.
Proof. revert a b. apply for_all_ascii2. vm_compute. reflexivity. Qed.

(** A group of two characters with a foreign character is no literal of
    base 16. *)
Lemma int16_foreign (a b : ascii) :
  foreign a = true \/ foreign b = true ->
  is_raise (Py.int16 (pair a b)) = true.
Proof.
  intros Hab. pose proof (foreign_check_all a b) as H.
  unfold foreign_check in H.
  destruct (foreign a), (foreign b); simpl in H; try exact H;
    destruct Hab; discriminate.
Qed.

(** The exceptions of [int]: the literal is named in the error, or it has
    too many digits for a base that is not a power of two. *)
Lemma int_literal_raise (base : Z) (s : string) (e : exception) :
  Py.int_literal base s = Raise e ->
  e = ValueError (InvalidLiteral base s)
  \/ (e = ValueError ExceedsDigitLimit /\ base <> 16).
Proof.
  unfold Py.int_literal.
  destruct (Py.take_sign (Py.skip_space s)) as [sign s1].
  destruct (Py.starts_with_underscore (Py.take_prefix base s1)).
  { intros H; injection H as <-; now left. }
  destruct (Py.scan_digits base (Py.take_prefix base s1) false 0 0)
    as [[[v digits] rest]|].
  - destruct digits as [|n].
    + intros H; injection H as <-; now left.
    + destruct (base =? 16) eqn:Hb; simpl.
      * destruct (Py.skip_space rest); [discriminate|].
        intros H; injection H as <-; now left.
      * destruct (Py.int_max_str_digits <? S n)%nat.
        -- intros H; injection H as <-. right. split; [reflexivity|].
           apply Z.eqb_neq, Hb.
        -- destruct (Py.skip_space rest); [discriminate|].
           intros H; injection H as <-; now left.
  - intros H; injection H as <-; now left.
Qed.

Lemma int16_raise (s : string) (e : exception) :
  Py.int16 s = Raise e -> e = ValueError (InvalidLiteral 16 s).
Proof.
  intros H. apply int_literal_raise in H.
  destruct H as [H|[_ H]]; [exact H|]. now contradiction H.
Qed.

Lemma lstrip_head (s : string) (ch a : ascii) (r : string) :
  Py.lstrip s ch = String a r -> Ascii.eqb a ch = false.
Proof.
  induction s as [|c s IH]; simpl; [discriminate|].
  destruct (Ascii.eqb c ch) eqn:E; [exact IH|].
  intros H. injection H as <- _. exact E.
Qed.

Lemma length_3 (t : string) :
  String.length t = 3%nat ->
  exists a b c, t = String a (String b (String c EmptyString)).
Proof.
  destruct t as [|a [|b [|c [|d t]]]]; simpl; try discriminate.
  intros _. now exists a, b, c.
Qed.

Lemma length_6 (t : string) :
  String.length t = 6%nat ->
  exists a b c d e f, t = pair a b ++ pair c d ++ pair e f.
Proof.
  destruct t as [|a [|b [|c [|d [|e [|f [|g t]]]]]]]; simpl; try discriminate.
  intros _. now exists a, b, c, d, e, f.
Qed.

(** [hex_to_rgb] on a token that is six characters long after stripping:
    the three groups are read in order. *)
Lemma hex_to_rgb_6 (s : string) (a b c d e f : ascii) :
  Py.lstrip s "#" = pair a b ++ pair c d ++ pair e f ->
  hex_to_rgb s =
  (r <- Py.int16 (pair a b) ;;
   g <- Py.int16 (pair c d) ;;
   bl <- Py.int16 (pair e f) ;;
   Ok [r; g; bl])%result.
Proof.
  intros H. unfold hex_to_rgb. rewrite H. cbn -[Py.int16].
  fold (pair a b) (pair c d) (pair e f).
  destruct (Py.int16 (pair a b)); cbn -[Py.int16]; [|reflexivity].
  destruct (Py.int16 (pair c d)); cbn -[Py.int16]; [|reflexivity].
  destruct (Py.int16 (pair e f)); reflexivity.
Qed.

(** [hex_to_rgb] on a token that is three characters long after stripping:
    the doubled characters are read in order. *)
Lemma hex_to_rgb_3 (s : string) (a b c : ascii) :
  Py.lstrip s "#" = String a (String b (String c EmptyString)) ->
  hex_to_rgb s =
  (r <- Py.int16 (Py.twice a) ;;
   g <- Py.int16 (Py.twice b) ;;
   bl <- Py.int16 (Py.twice c) ;;
   Ok [r; g; bl])%result.
Proof.
  intros H. unfold hex_to_rgb. rewrite H. cbn -[Py.int16].
  fold (Py.twice a) (Py.twice b) (Py.twice c).
  destruct (Py.int16 (Py.twice a)); cbn -[Py.int16]; [|reflexivity].
  destruct (Py.int16 (Py.twice b)); cbn -[Py.int16]; [|reflexivity].
  destruct (Py.int16 (Py.twice c)); reflexivity.
Qed.

(* ===================================================================== *)
(** ** ColorParser: [hex_to_rgb] *)
(* ===================================================================== *)

(** C6.  For every token that, after the leading [#] marks are stripped, is
    three hexadecimal digits, [hex_to_rgb] returns what it returns on the
    six-digit token with each digit doubled in place; the result is a
    triple of channels, each in 0..255. *)
Theorem hex_to_rgb_shorthand (s : string) :
  Py.len (Py.lstrip s "#") = 3%nat ->
  forallb is_hex (list_ascii_of_string (Py.lstrip s "#")) = true ->
  hex_to_rgb s = hex_to_rgb (double_digits (Py.lstrip s "#"))
  /\ exists r g b,
       hex_to_rgb s = Ok [r; g; b]
       /\ 0 <= r <= 255 /\ 0 <= g <= 255 /\ 0 <= b <= 255.
Proof.
  intros Hlen Hhex.
  destruct (length_3 _ Hlen) as (a & b & c & Ht).
  rewrite Ht in Hhex |- *. simpl in Hhex.
  destruct (is_hex a) eqn:Ha; [|discriminate].
  destruct (is_hex b) eqn:Hb; [|discriminate].
  destruct (is_hex c) eqn:Hc; [|discriminate].
  rewrite (hex_to_rgb_3 s a b c Ht).
  split.
  - symmetry. apply (hex_to_rgb_6 _ a a b b c c).
    simpl. now rewrite (is_hex_not_hash a Ha).
  - destruct (int16_twice a Ha) as (va & Ra & ->).
    destruct (int16_twice b Hb) as (vb & Rb & ->).
    destruct (int16_twice c Hc) as (vc & Rc & ->).
    exists (17 * va), (17 * vb), (17 * vc).
    split; [reflexivity|lia].
Qed.

Lemma hex_to_rgb_shorthand_witness :
  Py.len (Py.lstrip "#abc" "#") = 3%nat
  /\ forallb is_hex (list_ascii_of_string (Py.lstrip "#abc" "#")) = true
  /\ hex_to_rgb "#abc" = hex_to_rgb "aabbcc"
  /\ hex_to_rgb "abc" = Ok [170; 187; 204].
Proof.
  split; [reflexivity|]. split; [reflexivity|].
  split; [|reflexivity].
  apply (hex_to_rgb_shorthand "#abc"); reflexivity.
Defined.

(** C7.  For every token whose length after stripping the leading [#]
    marks is neither 3 nor 6, [hex_to_rgb] raises the argument error whose
    message carries the stripped token, and returns no triple. *)
Theorem hex_to_rgb_bad_length (s : string) :
  Py.len (Py.lstrip s "#") <> 3%nat ->
  Py.len (Py.lstrip s "#") <> 6%nat ->
  hex_to_rgb s =
  Raise (ArgumentTypeError ("Invalid color format: " ++ Py.lstrip s "#")).
Proof.
  intros H3 H6. unfold hex_to_rgb.
  destruct (Nat.eqb_spec (Py.len (Py.lstrip s "#")) 3) as [E|_];
    [contradiction|].
  destruct (Nat.eqb_spec (Py.len (Py.lstrip s "#")) 6) as [E|_];
    [contradiction|].
  reflexivity.
Qed.

Lemma hex_to_rgb_bad_length_witness :
  hex_to_rgb "##ff00" =
  Raise (ArgumentTypeError "Invalid color format: ff00").
Proof.
  apply (hex_to_rgb_bad_length "##ff00"); vm_compute; discriminate.
Defined.

(** C10, as stated, fails: the token [-f-f-f] is six characters long and
    has characters that are no hexadecimal digits, and [hex_to_rgb] does
    not fail on it at all, since [int] reads a sign. *)
Lemma hex_to_rgb_signed_groups :
  Py.len (Py.lstrip "-f-f-f" "#") = 6%nat
  /\ existsb (fun c => negb (is_hex c)) (list_ascii_of_string "-f-f-f") = true
  /\ hex_to_rgb "-f-f-f" = Ok [-15; -15; -15].
Proof. repeat split. Qed.

(** C10, amended.  For every token that is six characters long after
    stripping, [hex_to_rgb] never raises the argument error of the length
    check; it returns a triple exactly when [int(group, 16)] reads each of
    the three groups of two characters; when it fails, the failure is the
    [ValueError] of [int] on one of the groups; and it does fail whenever
    some character below U+0100 is neither a hexadecimal digit, nor a
    sign, nor white space for [int].  (The characters of the model are the
    code points below U+0100; beyond them [int] reads the decimal digits of
    other scripts as well, so that no such statement holds of every
    character that is no hexadecimal digit.) *)
Theorem hex_to_rgb_six_chars (s : string) :
  Py.len (Py.lstrip s "#") = 6%nat ->
  (forall msg, hex_to_rgb s <> Raise (ArgumentTypeError msg))
  /\ (forall r g b,
        hex_to_rgb s = Ok [r; g; b] <->
        Py.int16 (Py.slice (Py.lstrip s "#") 0 2) = Ok r
        /\ Py.int16 (Py.slice (Py.lstrip s "#") 2 4) = Ok g
        /\ Py.int16 (Py.slice (Py.lstrip s "#") 4 6) = Ok b)
  /\ (forall e,
        hex_to_rgb s = Raise e ->
        exists i, In i [0; 2; 4]%nat
                  /\ e = ValueError
                           (InvalidLiteral 16
                              (Py.slice (Py.lstrip s "#") i (i + 2))))
  /\ (existsb foreign (list_ascii_of_string (Py.lstrip s "#")) = true ->
      is_raise (hex_to_rgb s) = true).
Proof.
  intros Hlen.
  destruct (length_6 _ Hlen) as (a & b & c & d & e & f & Ht).
  rewrite (hex_to_rgb_6 s a b c d e f Ht). rewrite Ht.
  change (Py.slice (pair a b ++ pair c d ++ pair e f) 0 2) with (pair a b).
  change (Py.slice (pair a b ++ pair c d ++ pair e f) 2 4) with (pair c d).
  change (Py.slice (pair a b ++ pair c d ++ pair e f) 4 6) with (pair e f).
  assert (Hraise : forall x,
             (r <- Py.int16 (pair a b) ;;
              g <- Py.int16 (pair c d) ;;
              bl <- Py.int16 (pair e f) ;;
              Ok [r; g; bl])%result = Raise x ->
             exists i, In i [0; 2; 4]%nat
                       /\ x = ValueError
                                (InvalidLiteral 16
                                   (Py.slice (pair a b ++ pair c d ++ pair e f)
                                             i (i + 2)))).
  { intros x.
    destruct (Py.int16 (pair a b)) as [r|x1] eqn:E1; cbn -[Py.int16 In].
    - destruct (Py.int16 (pair c d)) as [g|x2] eqn:E2; cbn -[Py.int16 In].
      + destruct (Py.int16 (pair e f)) as [bl|x3] eqn:E3; cbn -[Py.int16 In];
          [discriminate|].
        intros H; injection H as <-. exists 4%nat.
        split; [simpl; tauto|]. exact (int16_raise _ _ E3).
      + intros H; injection H as <-. exists 2%nat.
        split; [simpl; tauto|]. exact (int16_raise _ _ E2).
    - intros H; injection H as <-. exists 0%nat.
      split; [simpl; tauto|]. exact (int16_raise _ _ E1). }
  split; [|split; [|split]].
  - intros msg H. destruct (Hraise _ H) as (i & _ & Hi). discriminate.
  - intros r g bl.
    destruct (Py.int16 (pair a b)) as [r'|]; cbn -[Py.int16].
    2:{ split; [discriminate|]. intros (H & _); discriminate. }
    destruct (Py.int16 (pair c d)) as [g'|]; cbn -[Py.int16].
    2:{ split; [discriminate|]. intros (_ & H & _); discriminate. }
    destruct (Py.int16 (pair e f)) as [b'|]; cbn -[Py.int16].
    2:{ split; [discriminate|]. intros (_ & _ & H); discriminate. }
    split.
    + intros H; injection H as -> -> ->. repeat split.
    + intros (H1 & H2 & H3).
      injection H1 as ->. injection H2 as ->. injection H3 as ->.
      reflexivity.
  - exact Hraise.
  - simpl. intros Hf.
    pose proof (int16_foreign a b) as Hab.
    pose proof (int16_foreign c d) as Hcd.
    pose proof (int16_foreign e f) as Hef.
    destruct (Py.int16 (pair a b)); [|reflexivity].
    destruct (Py.int16 (pair c d)); [|reflexivity].
    destruct (Py.int16 (pair e f)); [|reflexivity].
    simpl in Hab, Hcd, Hef.
    destruct (foreign a); [discriminate Hab; now left|].
    destruct (foreign b); [discriminate Hab; now right|].
    destruct (foreign c); [discriminate Hcd; now left|].
    destruct (foreign d); [discriminate Hcd; now right|].
    destruct (foreign e); [discriminate Hef; now left|].
    destruct (foreign f); [discriminate Hef; now right|].
    discriminate Hf.
Qed.

Lemma hex_to_rgb_six_chars_witness :
  Py.len (Py.lstrip "#12345g" "#") = 6%nat
  /\ existsb foreign (list_ascii_of_string (Py.lstrip "#12345g" "#")) = true
  /\ is_raise (hex_to_rgb "#12345g") = true.
Proof.
  split; [reflexivity|]. split; [reflexivity|].
  apply (hex_to_rgb_six_chars "#12345g" eq_refl). reflexivity.
Defined.

(* ===================================================================== *)
(** ** CanvasResolver: [parse_resolution] and [PRESETS] *)
(* ===================================================================== *)

Lemma lower_check_all (c : ascii) : lower_check c = true.
Proof. revert c. apply for_all_ascii. vm_compute. reflexivity. Qed.

Lemma lower_lower (s : string) : Py.lower (Py.lower s) = Py.lower s.
Proof.
  induction s as [|c s IH]; simpl; [reflexivity|].
  rewrite IH. f_equal. apply Ascii.eqb_eq, lower_check_all.
Qed.

Lemma decimal_check_all (c : ascii) : decimal_check c = true.
Proof. revert c. apply for_all_ascii. vm_compute. reflexivity. Qed.

Lemma decimal_facts (c : ascii) :
  is_decimal c = true ->
  Py.is_int_space c = false /\ Ascii.eqb c "+" = false
  /\ Ascii.eqb c "-" = false /\ Py.is_underscore c = false
  /\ Ascii.eqb c "x" = false /\ Py.lower_char c = c
  /\ exists d, Py.digit_value c = Some d
               /\ d = Z.of_N (Py.code c) - 48 /\ d < 10.
Proof.
  intros Hc. pose proof (decimal_check_all c) as H.
  unfold decimal_check in H. rewrite Hc in H. simpl in H.
  repeat (apply andb_prop in H; destruct H as [H ?]).
  repeat match goal with
         | K : negb _ = true |- _ => apply negb_true_iff in K
         end.
  repeat split; try assumption.
  - now apply Ascii.eqb_eq.
  - destruct (Py.digit_value c) as [d|]; [|discriminate].
    exists d. apply andb_prop in H0. destruct H0 as [E L].
    apply Z.eqb_eq in E. apply Z.ltb_lt in L. now repeat split.
Qed.

Lemma scan_digits_decimal (s : string) :
  forallb is_decimal (list_ascii_of_string s) = true ->
  forall acc n,
    Py.scan_digits 10 s false acc n =
    Some (fold_left decimal_step (list_ascii_of_string s) acc,
          (n + String.length s)%nat, EmptyString).
Proof.
  induction s as [|c s IH]; intros Hs acc n.
  - simpl. now rewrite Nat.add_0_r.
  - simpl in Hs. apply andb_prop in Hs. destruct Hs as [Hc Hs].
    destruct (decimal_facts c Hc) as (_ & _ & _ & Hu & _ & _ & d & Hd & E & L).
    cbn [Py.scan_digits]. rewrite Hu, Hd.
    apply Z.ltb_lt in L. rewrite L.
    rewrite (IH Hs). cbn [list_ascii_of_string fold_left String.length].
    subst d. rewrite Nat.add_succ_r. reflexivity.
Qed.

Lemma take_prefix_10 (s : string) : Py.take_prefix 10 s = s.
Proof. destruct s as [|c0 [|c1 r]]; reflexivity. Qed.

(** [int] reads a plain decimal numeral as the number it denotes. *)
Lemma int_numeral (s : string) :
  is_numeral s = true -> Py.int s = Ok (decimal_value s).
Proof.
  unfold is_numeral. intros H.
  apply andb_prop in H. destruct H as [H Hmax].
  apply andb_prop in H. destruct H as [Hs Hmin].
  destruct s as [|c s]; [discriminate|].
  pose proof Hs as Hcs. simpl in Hcs.
  apply andb_prop in Hcs. destruct Hcs as [Hc _].
  destruct (decimal_facts c Hc) as (Hsp & Hplus & Hminus & Hu & _).
  unfold Py.int, Py.int_literal.
  cbn [Py.skip_space]. rewrite Hsp.
  cbn [Py.take_sign]. rewrite Hplus, Hminus.
  rewrite take_prefix_10. cbn [Py.starts_with_underscore]. rewrite Hu.
  rewrite (scan_digits_decimal _ Hs).
  cbn [String.length Nat.add]. cbn [Z.eqb negb andb].
  apply Nat.leb_le in Hmax. cbn [String.length] in Hmax.
  apply Nat.ltb_ge in Hmax. rewrite Hmax.
  cbn [Py.skip_space Pos.eqb negb andb]. unfold decimal_value.
  f_equal. apply Z.mul_1_l.
Qed.

Lemma lower_numeral (s : string) :
  forallb is_decimal (list_ascii_of_string s) = true -> Py.lower s = s.
Proof.
  induction s as [|c s IH]; simpl; [reflexivity|].
  intros H. apply andb_prop in H. destruct H as [Hc Hs].
  destruct (decimal_facts c Hc) as (_ & _ & _ & _ & _ & -> & _).
  now rewrite IH.
Qed.

Lemma split_numeral (s : string) :
  forallb is_decimal (list_ascii_of_string s) = true -> Py.split s "x" = [s].
Proof.
  induction s as [|c s IH]; simpl; [reflexivity|].
  intros H. apply andb_prop in H. destruct H as [Hc Hs].
  destruct (decimal_facts c Hc) as (_ & _ & _ & _ & -> & _).
  now rewrite IH.
Qed.

Lemma split_numeral_x (a b : string) :
  forallb is_decimal (list_ascii_of_string a) = true ->
  Py.split (a ++ String "x" b) "x" = a :: Py.split b "x".
Proof.
  induction a as [|c a IH]; simpl; [reflexivity|].
  intros H. apply andb_prop in H. destruct H as [Hc Ha].
  destruct (decimal_facts c Hc) as (_ & _ & _ & _ & -> & _).
  now rewrite IH.
Qed.

Lemma lower_app (a b : string) :
  Py.lower (a ++ b) = Py.lower a ++ Py.lower b.
Proof. induction a as [|c a IH]; simpl; [reflexivity|now rewrite IH]. Qed.

(** [parse_resolution] by the parts of the lowered string. *)
Lemma parse_resolution_parts (s : string) :
  parse_resolution s =
  match Py.split (Py.lower s) "x" with
  | [a; b] =>
      match Py.int a, Py.int b with
      | Ok w, Ok h => Ok (w, h)
      | _, _ => Raise (ArgumentTypeError resolution_message)
      end
  | _ => Raise (ArgumentTypeError resolution_message)
  end.
Proof.
  unfold parse_resolution, unpack_two_ints, try_except, rbind.
  destruct (Py.split (Py.lower s) "x") as [|a [|b [|c r]]]; try reflexivity.
  - destruct (Py.int a); reflexivity.
  - destruct (Py.int a); [|reflexivity]. destruct (Py.int b); reflexivity.
  - destruct (Py.int a); [|reflexivity].
    destruct (Py.int b); [|reflexivity].
    destruct (Py.int c); reflexivity.
Qed.

(** C5, as stated, fails: zero and negative values are read by [int] and
    returned. *)
Lemma parse_resolution_zero_negative :
  parse_resolution "0x-5" = Ok (0, -5) /\ ~ (0 < 0 /\ 0 < -5).
Proof. split; [reflexivity|lia]. Qed.

(** C5, amended.  [parse_resolution] lowers the string, so that [X]
    separates as [x] does, splits it at every [x] and reads the parts with
    [int].  It returns [(w, h)] exactly when there are two parts and [int]
    reads them as [w] and [h], whatever their sign; on every other string
    (a part that is no integer literal, no separator, more than one
    separator) it raises the argument error with the fixed message, and
    nothing else. *)
Theorem parse_resolution_spec (s : string) :
  parse_resolution (Py.lower s) = parse_resolution s
  /\ (forall w h,
        parse_resolution s = Ok (w, h) <->
        exists a b, Py.split (Py.lower s) "x" = [a; b]
                    /\ Py.int a = Ok w /\ Py.int b = Ok h)
  /\ (forall e,
        parse_resolution s = Raise e ->
        e = ArgumentTypeError resolution_message)
  /\ (forall a, Py.split (Py.lower s) "x" = [a] ->
                parse_resolution s = Raise (ArgumentTypeError resolution_message))
  /\ (forall a b, Py.split (Py.lower s) "x" = [a; b] ->
                  is_raise (Py.int a) || is_raise (Py.int b) = true ->
                  parse_resolution s = Raise (ArgumentTypeError resolution_message))
  /\ (forall a b, s = a ++ "x" ++ b ->
                  is_numeral a = true -> is_numeral b = true ->
                  parse_resolution s = Ok (decimal_value a, decimal_value b)).
Proof.
  split; [|split; [|split; [|split; [|split]]]].
  - rewrite !parse_resolution_parts, lower_lower. reflexivity.
  - intros w h. rewrite parse_resolution_parts. split.
    + destruct (Py.split (Py.lower s) "x") as [|a [|b [|c r]]];
        try discriminate.
      destruct (Py.int a) as [w'|] eqn:Ea; [|discriminate].
      destruct (Py.int b) as [h'|] eqn:Eb; [|discriminate].
      intros H. injection H as -> ->. now exists a, b.
    + intros (a & b & -> & -> & ->). reflexivity.
  - intros e. rewrite parse_resolution_parts.
    destruct (Py.split (Py.lower s) "x") as [|a [|b [|c r]]];
      try (intros H; injection H as <-; reflexivity).
    destruct (Py.int a); [|intros H; injection H as <-; reflexivity].
    destruct (Py.int b); [discriminate|].
    intros H; injection H as <-; reflexivity.
  - intros a H. rewrite parse_resolution_parts, H. reflexivity.
  - intros a b H. rewrite parse_resolution_parts, H.
    destruct (Py.int a); simpl; [|reflexivity].
    destruct (Py.int b); simpl; [discriminate|reflexivity].
  - intros a b -> Ha Hb. rewrite parse_resolution_parts.
    assert (Da : forallb is_decimal (list_ascii_of_string a) = true).
    { unfold is_numeral in Ha.
      apply andb_prop in Ha. destruct Ha as [Ha _].
      apply andb_prop in Ha. now destruct Ha. }
    assert (Db : forallb is_decimal (list_ascii_of_string b) = true).
    { unfold is_numeral in Hb.
      apply andb_prop in Hb. destruct Hb as [Hb _].
      apply andb_prop in Hb. now destruct Hb. }
    rewrite lower_app. change (Py.lower ("x" ++ b)) with (String "x" (Py.lower b)).
    rewrite (lower_numeral a Da), (lower_numeral b Db).
    rewrite (split_numeral_x a b Da), (split_numeral b Db).
    now rewrite (int_numeral a Ha), (int_numeral b Hb).
Qed.

Lemma parse_resolution_spec_witness :
  parse_resolution "1920X1080" = Ok (1920, 1080)
  /\ parse_resolution "1920" = Raise (ArgumentTypeError resolution_message)
  /\ parse_resolution "axb" = Raise (ArgumentTypeError resolution_message)
  /\ parse_resolution "0x1080" = Ok (0, 1080).
Proof.
  split; [|split; [|split]];
    [| | |apply (parse_resolution_spec "0x1080") with (a := "0") (b := "1080");
          reflexivity].
  - apply (parse_resolution_spec "1920X1080").
    exists "1920", "1080". repeat split.
  - destruct (parse_resolution_spec "1920") as (_ & _ & _ & H & _).
    apply (H "1920"). reflexivity.
  - destruct (parse_resolution_spec "axb") as (_ & _ & _ & _ & H & _).
    apply (H "a" "b"); reflexivity.
Defined.

(** *** The preset table *)

Lemma bind_Val_inv {A B} (m : M A) (k : A -> M B) log b log2 :
  bind m k log = (Val b, log2) ->
  exists a log1, m log = (Val a, log1) /\ k a log1 = (Val b, log2).
Proof.
  unfold bind. destruct (m log) as [[a|e|c] log1]; try discriminate.
  intros H. now exists a, log1.
Qed.

Lemma ret_inv {A} (a b : A) log log' :
  ret a log = (Val b, log') -> a = b /\ log = log'.
Proof. unfold ret. intros H. injection H as -> ->. now split. Qed.

Lemma contains_presets (name : string) :
  Py.contains (Py.keys PRESETS) name = true <->
  name = "1080p" \/ name = "720p" \/ name = "4k".
Proof.
  unfold Py.contains, Py.keys, PRESETS. simpl.
  destruct (String.eqb_spec name "1080p") as [->|N1]; [simpl; tauto|].
  destruct (String.eqb_spec name "720p") as [->|N2]; [simpl; tauto|].
  destruct (String.eqb_spec name "4k") as [->|N3]; [simpl; tauto|].
  simpl. split; [discriminate|]. intros [H|[H|H]]; contradiction.
Qed.

(** What [parse_args] leaves in [args.preset] and [args.resolution] when
    [-p name] was given. *)
Lemma parse_args_preset (cl : CommandLine) (name : string) log args log' :
  opt_preset cl = Some name ->
  parse_args cl log = (Val args, log') ->
  Py.contains (Py.keys PRESETS) name = true
  /\ preset args = Some name /\ resolution args = None.
Proof.
  intros Hp H. unfold parse_args in H. rewrite Hp in H.
  apply bind_Val_inv in H. destruct H as (input_ & l1 & _ & H).
  apply bind_Val_inv in H. destruct H as (preset_ & l2 & Hpre & H).
  apply bind_Val_inv in H. destruct H as (resolution_ & l3 & _ & H).
  apply bind_Val_inv in H. destruct H as (u & l4 & Hex & H).
  apply bind_Val_inv in H. destruct H as (size_ & l5 & _ & H).
  apply bind_Val_inv in H. destruct H as (color_ & l6 & _ & H).
  apply bind_Val_inv in H. destruct H as (bg_ & l7 & _ & H).
  apply bind_Val_inv in H. destruct H as (output_ & l8 & _ & H).
  apply ret_inv in H. destruct H as [<- _]. simpl.
  destruct (Py.contains (Py.keys PRESETS) name) eqn:Hc.
  - apply ret_inv in Hpre. destruct Hpre as [<- _].
    destruct resolution_ as [r|]; [discriminate Hex|]. now repeat split.
  - discriminate Hpre.
Qed.

(** C8.  When a preset name is given: the names accepted are exactly
    [1080p], [720p] and [4k]; every other name ends the run in the argument
    parser with status 2; and for an accepted name the canvas is the pair
    of the table, (1920, 1080), (1280, 720) and (3840, 2160). *)
Theorem presets_exact (cl : CommandLine) (name : string) (log : list event) :
  opt_preset cl = Some name ->
  (Py.contains (Py.keys PRESETS) name = true <->
   name = "1080p" \/ name = "720p" \/ name = "4k")
  /\ (Py.contains (Py.keys PRESETS) name = false ->
      exists log', parse_args cl log = (SysExit 2, log'))
  /\ (forall args log',
        parse_args cl log = (Val args, log') ->
        (name = "1080p" /\ canvas_size args = Ok (1920, 1080))
        \/ (name = "720p" /\ canvas_size args = Ok (1280, 720))
        \/ (name = "4k" /\ canvas_size args = Ok (3840, 2160))).
Proof.
  intros Hp. split; [apply contains_presets|]. split.
  - intros Hc. unfold parse_args, bind, required. rewrite Hp, Hc.
    destruct (opt_input cl); simpl; eexists; reflexivity.
  - intros args log' H.
    destruct (parse_args_preset cl name log args log' Hp H) as (Hc & Ha & _).
    apply contains_presets in Hc. unfold canvas_size. rewrite Ha.
    destruct Hc as [ -> | [ -> | -> ] ]; simpl; tauto.
Qed.

Lemma presets_exact_witness :
  exists args,
    parse_args {| opt_input := Some "art.png"; opt_preset := Some "720p";
                  opt_resolution := None; opt_font := None; opt_size := None;
                  opt_color := None; opt_bg := None; opt_braille := false;
                  opt_output := Some "out.png" |} [] = (Val args, [])
    /\ canvas_size args = Ok (1280, 720).
Proof.
  eexists. split; [reflexivity|].
  destruct (presets_exact
              {| opt_input := Some "art.png"; opt_preset := Some "720p";
                 opt_resolution := None; opt_font := None; opt_size := None;
                 opt_color := None; opt_bg := None; opt_braille := false;
                 opt_output := Some "out.png" |} "720p" [] eq_refl)
    as (_ & _ & H).
  destruct (H _ _ eq_refl) as [[E _]|[[_ E]|[E _]]];
    [discriminate E|exact E|discriminate E].
Defined.

(* ===================================================================== *)
(** ** GridFitter: the dimensions handed to the converter *)
(* ===================================================================== *)

Lemma ascii_cmd_nonzero (args : Namespace) (canvas_w canvas_h char_w char_h : Z)
      (tmpdir_ : string) (cropped : Path.t) :
  char_w <> 0 -> char_h <> 0 ->
  exists cmd,
    ascii_cmd args canvas_w canvas_h char_w char_h tmpdir_ cropped = Ok cmd
    /\ nth_error cmd 0 = Some "ascii-image-converter"
    /\ nth_error cmd 2 = Some "--dimensions"
    /\ nth_error cmd 3 =
       Some (dimensions_arg (canvas_w / char_w) (canvas_h / char_h)).
Proof.
  intros Hw Hh. unfold ascii_cmd, Py.floordiv.
  apply Z.eqb_neq in Hw, Hh. rewrite Hw, Hh. cbn [rbind].
  destruct (braille args); eexists; (split; [reflexivity|]);
    repeat split.
Qed.


(** When [magick] succeeds, the converter is started with [cmd]. *)
Lemma convert_starts_converter (w : World) (args : Namespace)
      (canvas_w canvas_h char_w char_h : Z) (log : list event)
      (cmd : list string) :
  ascii_cmd args canvas_w canvas_h char_w char_h (tmpdir w) (cropped_path w)
  = Ok cmd ->
  returncode w (resize_cmd args canvas_w canvas_h (cropped_path w)) = Ok 0 ->
  In (Subprocess cmd)
     (snd (convert w args canvas_w canvas_h char_w char_h log)).
Proof.
  intros Hcmd Hrc. unfold convert. fold (cropped_path w). rewrite Hcmd.
  run_script. rewrite Hrc. cbn [Z.eqb].
  destruct (returncode w cmd) as [rc|e].
  - destruct (rc =? 0).
    + destruct (read_text w _); cbn [snd];
        rewrite !in_app_iff; simpl; tauto.
    + cbn [is_CalledProcessError snd].
      rewrite !in_app_iff; simpl; tauto.
  - destruct (is_CalledProcessError e); cbn [snd];
      rewrite !in_app_iff; simpl; tauto.
Qed.

(** C1.  For positive cell dimensions the [--dimensions] argument of the
    converter command is made of [canvas_w // char_w] and
    [canvas_h // char_h], which are the floors of the quotients: the
    largest numbers of whole cells that fit in the canvas; and that
    command is the one the converter is started with. *)
Theorem grid_size_is_floor (w : World) (args : Namespace)
        (canvas_w canvas_h char_w char_h : Z) (log : list event) :
  0 < char_w -> 0 < char_h ->
  (canvas_w / char_w) * char_w <= canvas_w < (canvas_w / char_w + 1) * char_w
  /\ (canvas_h / char_h) * char_h <= canvas_h < (canvas_h / char_h + 1) * char_h
  /\ exists cmd,
       ascii_cmd args canvas_w canvas_h char_w char_h
                 (tmpdir w) (cropped_path w) = Ok cmd
       /\ nth_error cmd 2 = Some "--dimensions"
       /\ nth_error cmd 3 =
          Some (dimensions_arg (canvas_w / char_w) (canvas_h / char_h))
       /\ (returncode w (resize_cmd args canvas_w canvas_h (cropped_path w))
           = Ok 0 ->
           In (Subprocess cmd)
              (snd (convert w args canvas_w canvas_h char_w char_h log))).
Proof.
  intros Hw Hh.
  split; [|split].
  - pose proof (Z.mul_div_le canvas_w char_w Hw).
    pose proof (Z.mul_succ_div_gt canvas_w char_w Hw). lia.
  - pose proof (Z.mul_div_le canvas_h char_h Hh).
    pose proof (Z.mul_succ_div_gt canvas_h char_h Hh). lia.
  - destruct (ascii_cmd_nonzero args canvas_w canvas_h char_w char_h
                (tmpdir w) (cropped_path w)) as (cmd & E & _ & H2 & H3);
      [lia|lia|].
    exists cmd. repeat split; try assumption.
    now apply convert_starts_converter.
Qed.

(** Scenario B: a canvas of 100 by 50 and a cell of 20 by 25 give 5 columns
    and 2 rows. *)
Lemma grid_size_is_floor_witness :
  0 < 20 /\ 0 < 25
  /\ exists cmd,
       ascii_cmd (Sample.args "out.png") 100 50 20 25
                 (tmpdir Sample.world) (cropped_path Sample.world) = Ok cmd
       /\ nth_error cmd 3 = Some "5,2"
       /\ In (Subprocess cmd)
             (snd (convert Sample.world (Sample.args "out.png") 100 50 20 25 [])).
Proof.
  split; [lia|]. split; [lia|].
  destruct (grid_size_is_floor Sample.world (Sample.args "out.png")
              100 50 20 25 []) as (_ & _ & cmd & E & _ & H3 & Hin);
    [lia|lia|].
  exists cmd. split; [exact E|]. split; [exact H3|].
  apply Hin. reflexivity.
Defined.

(* ===================================================================== *)
(** ** Rasterizer: the drawing loop *)
(* ===================================================================== *)

Lemma enumerate_from_length {A} (xs : list A) (k : Z) :
  List.length (Py.enumerate_from k xs) = List.length xs.
Proof.
  revert k. induction xs as [|x xs IH]; intros k; simpl;
    [reflexivity|now rewrite IH].
Qed.

Lemma enumerate_from_nth {A} (xs : list A) (k : Z) (i : nat) (x : A) :
  nth_error xs i = Some x ->
  nth_error (Py.enumerate_from k xs) i = Some (k + Z.of_nat i, x).
Proof.
  revert k i. induction xs as [|y xs IH]; intros k i.
  - destruct i; discriminate.
  - destruct i as [|i]; simpl.
    + intros H. injection H as ->. now rewrite Z.add_0_r.
    + intros H. rewrite (IH (k + 1) i H). do 2 f_equal. lia.
Qed.

Lemma draw_rows (char_h : Z) (font_ : Font) (fg : list Z)
      (rows : list (Z * string)) (img : Image) :
  let out := fold_left
               (fun im '(i, line) => draw_text im (0, i * char_h) line font_ fg)
               rows img in
  im_texts out = (im_texts img ++ map (row_call char_h font_ fg) rows)%list
  /\ im_mode out = im_mode img /\ im_size out = im_size img
  /\ im_color out = im_color img.
Proof.
  revert img. induction rows as [|[i line] rows IH]; intros img; simpl.
  - now rewrite app_nil_r.
  - destruct (IH (draw_text img (0, i * char_h) line font_ fg))
      as (Ht & Hm & Hs & Hc).
    simpl in Ht, Hm, Hs, Hc. rewrite Ht, Hm, Hs, Hc.
    rewrite <- app_assoc. now repeat split.
Qed.

(** C2.  On a text grid of R rows the loop adds exactly R calls of
    [draw.text] to the image, in the order of the rows; the call for the
    row of index [i] is at x = 0 and y = i * char_h, with the text of the
    row, the loaded font and the foreground colour; nothing else of the
    image changes. *)
Theorem draw_ascii_art_rows (img : Image) (lines : list string) (char_h : Z)
        (font_ : Font) (fg : list Z) :
  exists drawn,
    im_texts (draw_ascii_art img lines char_h font_ fg)
    = (im_texts img ++ drawn)%list
    /\ List.length drawn = List.length lines
    /\ (forall i line,
          nth_error lines i = Some line ->
          nth_error drawn i =
          Some {| tc_xy := (0, Z.of_nat i * char_h); tc_text := line;
                  tc_font := font_; tc_fill := fg |})
    /\ im_mode (draw_ascii_art img lines char_h font_ fg) = im_mode img
    /\ im_size (draw_ascii_art img lines char_h font_ fg) = im_size img
    /\ im_color (draw_ascii_art img lines char_h font_ fg) = im_color img.
Proof.
  exists (map (row_call char_h font_ fg) (Py.enumerate lines)).
  destruct (draw_rows char_h font_ fg (Py.enumerate lines) img)
    as (Ht & Hm & Hs & Hc).
  unfold draw_ascii_art.
  split; [exact Ht|]. split; [|split; [|now repeat split]].
  - rewrite length_map. apply enumerate_from_length.
  - intros i line H. unfold Py.enumerate.
    rewrite nth_error_map, (enumerate_from_nth lines 0 i line H).
    reflexivity.
Qed.

Lemma draw_ascii_art_rows_witness :
  exists img,
    Image_new Sample.world "RGB" (100, 50) [0; 0; 0] = Ok img
    /\ im_texts (draw_ascii_art img ["#####"; "@@@@@"] 25
                   {| font_file := "TerminusTTF.ttf"; font_size := 12 |}
                   [255; 255; 255])
       = [ {| tc_xy := (0, 0); tc_text := "#####";
              tc_font := {| font_file := "TerminusTTF.ttf"; font_size := 12 |};
              tc_fill := [255; 255; 255] |};
           {| tc_xy := (0, 25); tc_text := "@@@@@";
              tc_font := {| font_file := "TerminusTTF.ttf"; font_size := 12 |};
              tc_fill := [255; 255; 255] |} ].
Proof.
  eexists. split; [reflexivity|].
  destruct (draw_ascii_art_rows
              {| im_mode := "RGB"; im_size := (100, 50); im_color := [0; 0; 0];
                 im_texts := [] |}
              ["#####"; "@@@@@"] 25
              {| font_file := "TerminusTTF.ttf"; font_size := 12 |}
              [255; 255; 255]) as (drawn & Ht & Hlen & Hnth & _).
  rewrite Ht.
  destruct drawn as [|c0 [|c1 [|c2 drawn]]]; try discriminate Hlen.
  pose proof (Hnth 0%nat "#####" eq_refl) as H0.
  pose proof (Hnth 1%nat "@@@@@" eq_refl) as H1.
  simpl in H0, H1. injection H0 as ->. injection H1 as ->.
  reflexivity.
Defined.

(* ===================================================================== *)
(** ** GridFitter: a grid with a dimension of zero *)
(* ===================================================================== *)

(** C3, as stated, fails: with a cell of 20 by 25 pixels a canvas of 10 by
    10 gives the grid 0 by 0, and the run is not stopped: the converter is
    started with [--dimensions 0,0] and, the tools succeeding, the picture
    is saved and the run ends with status 0. *)
Lemma small_canvas_is_not_rejected :
  textbbox Sample.world (0, 0) "A"
           {| font_file := "TerminusTTF.ttf"; font_size := 12 |}
  = (0, 3, 20, 28)
  /\ 10 / (20 - 0) = 0 /\ 10 / (28 - 3) = 0
  /\ exists log,
       script Sample.world (Sample.command_line "10x10" "out.png") []
       = (Val tt, log)
       /\ In (Subprocess ["ascii-image-converter"; "--only-save";
                          "--dimensions"; "0,0"; "--save-txt"; "/tmp/tmpk3v9";
                          "/tmp/tmpk3v9/cropped"]) log
       /\ In (Stdout "Successfully saved at out.png") log.
Proof.
  split; [reflexivity|]. split; [reflexivity|]. split; [reflexivity|].
  eexists. split; [vm_compute; reflexivity|].
  split; simpl; tauto.
Qed.

(** C3, amended.  For positive cell dimensions the script has no check of
    the grid size: the command of the converter is always built, with the
    quotients as they are, zero included, and when both tools return 0 and
    the text file can be read the conversion step returns the rows of that
    file.  For a canvas at least as large as one cell in each axis neither
    grid dimension is 0. *)
Theorem zero_grid_is_passed_on (w : World) (args : Namespace)
        (canvas_w canvas_h char_w char_h : Z) (log : list event) :
  0 < char_w -> 0 < char_h ->
  (char_w <= canvas_w -> char_h <= canvas_h ->
   canvas_w / char_w <> 0 /\ canvas_h / char_h <> 0)
  /\ exists cmd,
       ascii_cmd args canvas_w canvas_h char_w char_h
                 (tmpdir w) (cropped_path w) = Ok cmd
       /\ nth_error cmd 3 =
          Some (dimensions_arg (canvas_w / char_w) (canvas_h / char_h))
       /\ (forall text,
             returncode w (resize_cmd args canvas_w canvas_h (cropped_path w))
             = Ok 0 ->
             returncode w cmd = Ok 0 ->
             read_text w (txt_path w) = Ok text ->
             convert w args canvas_w canvas_h char_w char_h log
             = (Val (Py.split (Py.rstrip text "010") "010"),
                (log ++ [Subprocess
                           (resize_cmd args canvas_w canvas_h (cropped_path w));
                         Subprocess cmd])%list)).
Proof.
  intros Hw Hh. split.
  - intros Lw Lh.
    pose proof (Z.div_le_lower_bound canvas_w char_w 1 Hw).
    pose proof (Z.div_le_lower_bound canvas_h char_h 1 Hh). lia.
  - destruct (ascii_cmd_nonzero args canvas_w canvas_h char_w char_h
                (tmpdir w) (cropped_path w)) as (cmd & E & _ & _ & H3);
      [lia|lia|].
    exists cmd. split; [exact E|]. split; [exact H3|].
    intros text R1 R2 Rt. unfold convert.
    fold (cropped_path w) (txt_path w). rewrite E.
    run_script. rewrite R1. cbn [Z.eqb]. rewrite R2. cbn [Z.eqb].
    rewrite Rt. now rewrite <- app_assoc.
Qed.

Lemma zero_grid_is_passed_on_witness :
  0 < 20 /\ 0 < 25
  /\ convert Sample.world (Sample.args "out.png") 10 10 20 25 []
     = (Val ["#####"; "@@@@@"],
        [Subprocess ["magick"; "art.png"; "-resize"; "10x10^"; "-gravity";
                     "center"; "-extent"; "10x10"; "/tmp/tmpk3v9/cropped"];
         Subprocess ["ascii-image-converter"; "--only-save"; "--dimensions";
                     "0,0"; "--save-txt"; "/tmp/tmpk3v9";
                     "/tmp/tmpk3v9/cropped"]]).
Proof.
  split; [lia|]. split; [lia|].
  destruct (zero_grid_is_passed_on Sample.world (Sample.args "out.png")
              10 10 20 25 []) as (_ & cmd & E & _ & H); [lia|lia|].
  injection E as <-.
  apply (H ("#####" ++ newline ++ "@@@@@" ++ newline)); reflexivity.
Defined.

(* ===================================================================== *)
(** ** FontMetrics: the measured cell *)
(* ===================================================================== *)




(* ===================================================================== *)
(** ** Error handling: the fallback of the output path *)
(* ===================================================================== *)

Section Tidy.

Variable allowed : event -> Prop.








Lemma fatal_parser_error {A} : fatal (@parser_error A).
Proof. intros log. exists [ArgparseError], 2. now split. Qed.



Lemma tidy_weaken {A} (stronger : event -> Prop) (m : M A) :
  (forall ev, stronger ev -> allowed ev) -> tidy stronger m -> tidy allowed m.
Proof.
  intros Hw Hm log. destruct (Hm log) as (added & E & P).
  exists added. split; [exact E|].
  destruct (fst (m log)); auto.
Qed.

End Tidy.


Section TidyScript.

Variable w : World.









End TidyScript.


(** *** What a step that goes on tells of the world *)











(* ===================================================================== *)
(** ** More on [hex_to_rgb] *)
(* ===================================================================== *)

Lemma channel_check_all (a b : ascii) : channel_check a b = true.
Proof. revert a b. apply for_all_ascii2. vm_compute. reflexivity. Qed.

Lemma case_check_all (a b : ascii) : case_check a b = true.
Proof. revert a b. apply for_all_ascii2. vm_compute. reflexivity. Qed.

Lemma marker_check_all (c : ascii) : marker_check c = true.
Proof. revert c. apply for_all_ascii. vm_compute. reflexivity. Qed.

Lemma option_Z_eqb_eq (x y : option Z) : option_Z_eqb x y = true -> x = y.
Proof.
  destruct x as [a|], y as [b|]; simpl; try discriminate; [|reflexivity].
  intros H. apply Z.eqb_eq in H. now subst.
Qed.

Lemma int16_lower_pair (a b : ascii) :
  result_value (Py.int16 (pair (Py.lower_char a) (Py.lower_char b)))
  = result_value (Py.int16 (pair a b)).
Proof. apply option_Z_eqb_eq, case_check_all. Qed.

Lemma result_value_triple (ra rg rb : result Z) :
  result_value (r <- ra ;; g <- rg ;; b <- rb ;; Ok [r; g; b])%result
  = triple (result_value ra) (result_value rg) (result_value rb).
Proof. destruct ra, rg, rb; reflexivity. Qed.

(** Whatever the token, [hex_to_rgb] returns only when the stripped token
    has three or six characters. *)
Lemma hex_to_rgb_ok_length (s : string) (rgb : list Z) :
  hex_to_rgb s = Ok rgb ->
  Py.len (Py.lstrip s "#") = 3%nat \/ Py.len (Py.lstrip s "#") = 6%nat.
Proof.
  unfold hex_to_rgb.
  destruct (Nat.eqb_spec (Py.len (Py.lstrip s "#")) 3) as [E3|N3];
    [now left|].
  destruct (Nat.eqb_spec (Py.len (Py.lstrip s "#")) 6) as [E6|N6];
    [now right|discriminate].
Qed.

Lemma hex_to_rgb_length (s : string) (rgb : list Z) :
  hex_to_rgb s = Ok rgb -> List.length rgb = 3%nat.
Proof.
  intros H. destruct (hex_to_rgb_ok_length s rgb H) as [E|E].
  - destruct (length_3 _ E) as (a & b & c & Ht).
    rewrite (hex_to_rgb_3 s a b c Ht) in H.
    destruct (Py.int16 (Py.twice a)); [|discriminate].
    destruct (Py.int16 (Py.twice b)); [|discriminate].
    destruct (Py.int16 (Py.twice c)); [|discriminate].
    simpl in H. injection H as <-. reflexivity.
  - destruct (length_6 _ E) as (a & b & c & d & e & f & Ht).
    rewrite (hex_to_rgb_6 s a b c d e f Ht) in H.
    destruct (Py.int16 (pair a b)); [|discriminate].
    destruct (Py.int16 (pair c d)); [|discriminate].
    destruct (Py.int16 (pair e f)); [|discriminate].
    simpl in H. injection H as <-. reflexivity.
Qed.

(** X1.  Whenever [hex_to_rgb] returns, the token had three or six
    characters after the markers and the tuple has exactly three
    channels. *)
Theorem hex_to_rgb_returns_triple (s : string) (rgb : list Z) :
  hex_to_rgb s = Ok rgb ->
  List.length rgb = 3%nat
  /\ (Py.len (Py.lstrip s "#") = 3%nat \/ Py.len (Py.lstrip s "#") = 6%nat).
Proof.
  intros H. split; [exact (hex_to_rgb_length s rgb H)|].
  exact (hex_to_rgb_ok_length s rgb H).
Qed.

Lemma hex_to_rgb_returns_triple_witness :
  hex_to_rgb "#0a141E" = Ok [10; 20; 30]
  /\ List.length [10; 20; 30] = 3%nat.
Proof.
  split; [reflexivity|].
  apply (hex_to_rgb_returns_triple "#0a141E" [10; 20; 30]). reflexivity.
Defined.

(** X2.  A token of six hexadecimal digits, of either case, gives the three
    channels 16 * high + low of its groups, each in 0..255. *)
Theorem hex_to_rgb_six_digits (s : string) (a b c d e f : ascii) :
  Py.lstrip s "#" = pair a b ++ pair c d ++ pair e f ->
  forallb is_hex [a; b; c; d; e; f] = true ->
  hex_to_rgb s = Ok [channel a b; channel c d; channel e f]
  /\ 0 <= channel a b <= 255
  /\ 0 <= channel c d <= 255
  /\ 0 <= channel e f <= 255.
Proof.
  intros Ht Hhex. rewrite (hex_to_rgb_6 s a b c d e f Ht).
  simpl in Hhex.
  repeat (apply andb_prop in Hhex; destruct Hhex as [? Hhex]).
  assert (K : forall x y, is_hex x = true -> is_hex y = true ->
                          Py.int16 (pair x y) = Ok (channel x y)
                          /\ 0 <= channel x y <= 255).
  { intros x y Hx Hy. pose proof (channel_check_all x y) as C.
    unfold channel_check in C. rewrite Hx, Hy in C. simpl in C.
    apply andb_prop in C. destruct C as [C C3].
    apply andb_prop in C. destruct C as [C1 C2].
    split; [now apply is_ok_with_true|lia]. }
  destruct (K a b) as [-> Rab]; try assumption.
  destruct (K c d) as [-> Rcd]; try assumption.
  destruct (K e f) as [-> Ref]; try assumption.
  now repeat split.
Qed.

Lemma hex_to_rgb_six_digits_witness :
  hex_to_rgb "fF8000" = Ok [255; 128; 0].
Proof.
  apply (hex_to_rgb_six_digits "fF8000" "f" "F" "8" "0" "0" "0");
    reflexivity.
Defined.

Lemma lstrip_hashes (n : nat) (s : string) :
  Py.lstrip (hashes n ++ s) "#" = Py.lstrip s "#".
Proof. induction n as [|n IH]; [reflexivity|exact IH]. Qed.

(** X3.  Any number of markers before the token changes nothing: the
    result, the error and its message included, is that of the token
    without them. *)
Theorem hex_to_rgb_markers (n : nat) (s : string) :
  hex_to_rgb (hashes n ++ s) = hex_to_rgb s
  /\ hex_to_rgb (Py.lstrip s "#") = hex_to_rgb s.
Proof.
  split.
  - unfold hex_to_rgb. now rewrite lstrip_hashes.
  - unfold hex_to_rgb.
    assert (E : Py.lstrip (Py.lstrip s "#") "#" = Py.lstrip s "#").
    { induction s as [|c s IH]; [reflexivity|]. simpl.
      destruct (Ascii.eqb c "#") eqn:Ec; [exact IH|].
      simpl. now rewrite Ec. }
    now rewrite E.
Qed.

Lemma lstrip_lower (s : string) :
  Py.lstrip (Py.lower s) "#" = Py.lower (Py.lstrip s "#").
Proof.
  induction s as [|c s IH]; [reflexivity|]. simpl.
  pose proof (marker_check_all c) as M. unfold marker_check in M.
  apply Bool.eqb_prop in M. rewrite M.
  destruct (Ascii.eqb c "#"); [exact IH|reflexivity].
Qed.

Lemma lower_length (s : string) :
  String.length (Py.lower s) = String.length s.
Proof. induction s as [|c s IH]; simpl; [reflexivity|now rewrite IH]. Qed.

(** X4.  The case of the letters does not matter: [hex_to_rgb] returns on
    the lowered token exactly when it returns on the token, and the same
    channels. *)
Theorem hex_to_rgb_any_case (s : string) :
  result_value (hex_to_rgb (Py.lower s)) = result_value (hex_to_rgb s).
Proof.
  destruct (Nat.eq_dec (Py.len (Py.lstrip s "#")) 3) as [E3|N3].
  - destruct (length_3 _ E3) as (a & b & c & Ht).
    assert (Hl : Py.lstrip (Py.lower s) "#"
                 = String (Py.lower_char a)
                     (String (Py.lower_char b)
                        (String (Py.lower_char c) EmptyString))).
    { rewrite lstrip_lower, Ht. reflexivity. }
    rewrite (hex_to_rgb_3 _ _ _ _ Ht), (hex_to_rgb_3 _ _ _ _ Hl).
    rewrite !result_value_triple. unfold Py.twice.
    fold (pair (Py.lower_char a) (Py.lower_char a)) (pair a a)
         (pair (Py.lower_char b) (Py.lower_char b)) (pair b b)
         (pair (Py.lower_char c) (Py.lower_char c)) (pair c c).
    now rewrite !int16_lower_pair.
  - destruct (Nat.eq_dec (Py.len (Py.lstrip s "#")) 6) as [E6|N6].
    + destruct (length_6 _ E6) as (a & b & c & d & e & f & Ht).
      assert (Hl : Py.lstrip (Py.lower s) "#"
                   = pair (Py.lower_char a) (Py.lower_char b)
                     ++ pair (Py.lower_char c) (Py.lower_char d)
                     ++ pair (Py.lower_char e) (Py.lower_char f)).
      { rewrite lstrip_lower, Ht. reflexivity. }
      rewrite (hex_to_rgb_6 _ _ _ _ _ _ _ Ht), (hex_to_rgb_6 _ _ _ _ _ _ _ Hl).
      rewrite !result_value_triple. now rewrite !int16_lower_pair.
    + assert (K : forall t, Py.len (Py.lstrip t "#") <> 3%nat ->
                            Py.len (Py.lstrip t "#") <> 6%nat ->
                            result_value (hex_to_rgb t) = None).
      { intros t H3 H6.
        destruct (hex_to_rgb t) as [rgb|] eqn:E; [|reflexivity].
        destruct (hex_to_rgb_ok_length t rgb E); contradiction. }
      rewrite (K s N3 N6). apply K; unfold Py.len in *;
        now rewrite lstrip_lower, lower_length.
Qed.

(* ===================================================================== *)
(** ** The rows read from the converter's file *)
(* ===================================================================== *)

Lemma append_assoc (a b c : string) : (a ++ b) ++ c = a ++ (b ++ c).
Proof. induction a as [|x a IH]; simpl; [reflexivity|now rewrite IH]. Qed.

Lemma split_not_nil (s : string) (sep : ascii) : Py.split s sep <> [].
Proof.
  destruct s as [|c s]; simpl; [discriminate|].
  destruct (Ascii.eqb c sep); [discriminate|].
  destruct (Py.split s sep); discriminate.
Qed.

Lemma split_clean (s : string) (sep : ascii) :
  clean sep s = true -> Py.split s sep = [s].
Proof.
  unfold clean. induction s as [|c s IH]; simpl; [reflexivity|].
  intros H. apply andb_prop in H. destruct H as [Hc Hs].
  apply negb_true_iff in Hc. rewrite Hc, (IH Hs). reflexivity.
Qed.

Lemma split_clean_sep (a b : string) (sep : ascii) :
  clean sep a = true ->
  Py.split (a ++ String sep b) sep = a :: Py.split b sep.
Proof.
  unfold clean. induction a as [|c a IH]; simpl.
  - intros _. now rewrite Ascii.eqb_refl.
  - intros H. apply andb_prop in H. destruct H as [Hc Ha].
    apply negb_true_iff in Hc. rewrite Hc, (IH Ha). reflexivity.
Qed.

Lemma split_parts_clean (s : string) (sep : ascii) :
  Forall (fun p => clean sep p = true) (Py.split s sep).
Proof.
  induction s as [|c s IH]; simpl.
  - now constructor.
  - destruct (Ascii.eqb c sep) eqn:Ec.
    + now constructor.
    + destruct (Py.split s sep) as [|p ps].
      * constructor; [|constructor]. unfold clean. simpl. now rewrite Ec.
      * inversion IH as [|p' ps' Hp Hps]; subst.
        constructor; [|exact Hps].
        unfold clean in *. simpl. now rewrite Ec.
Qed.

Lemma rstrip_clean (s : string) (ch : ascii) :
  clean ch s = true -> Py.rstrip s ch = s.
Proof.
  unfold clean. induction s as [|c s IH]; simpl; [reflexivity|].
  intros H. apply andb_prop in H. destruct H as [Hc Hs].
  apply negb_true_iff in Hc. rewrite (IH Hs), Hc.
  destruct s; reflexivity.
Qed.

Lemma rstrip_app_sep (s : string) (ch : ascii) :
  Py.rstrip (s ++ String ch EmptyString) ch = Py.rstrip s ch.
Proof.
  induction s as [|c s IH]; simpl.
  - now rewrite Ascii.eqb_refl.
  - now rewrite IH.
Qed.

Lemma rstrip_app (a b : string) (ch : ascii) :
  Py.rstrip b ch <> EmptyString ->
  Py.rstrip (a ++ b) ch = a ++ Py.rstrip b ch.
Proof.
  intros Hb. induction a as [|c a IH]; simpl; [reflexivity|].
  rewrite IH. destruct (a ++ Py.rstrip b ch) eqn:E; [|reflexivity].
  destruct a; simpl in E; [contradiction|discriminate].
Qed.

Lemma rstrip_last (s : string) (ch : ascii) :
  Py.rstrip s ch = EmptyString
  \/ exists c, last_char (Py.rstrip s ch) = Some c /\ Ascii.eqb c ch = false.
Proof.
  induction s as [|c s IH]; simpl; [now left|].
  destruct (Py.rstrip s ch) as [|d r] eqn:E.
  - destruct (Ascii.eqb c ch) eqn:Ec; [now left|].
    right. exists c. now split.
  - right. destruct IH as [IH|IH]; [discriminate|].
    exact IH.
Qed.

Lemma split_last (s : string) (sep c : ascii) :
  last_char s = Some c -> Ascii.eqb c sep = false ->
  last (Py.split s sep) EmptyString <> EmptyString.
Proof.
  intros Hl Hc. induction s as [|a s IH]; [discriminate|].
  destruct s as [|b s].
  - simpl in Hl. injection Hl as ->. simpl. rewrite Hc. discriminate.
  - assert (Hl' : last_char (String b s) = Some c) by exact Hl.
    specialize (IH Hl').
    change (Py.split (String a (String b s)) sep)
      with (if Ascii.eqb a sep then EmptyString :: Py.split (String b s) sep
            else match Py.split (String b s) sep with
                 | p :: ps => String a p :: ps
                 | [] => [String a EmptyString]
                 end).
    pose proof (split_not_nil (String b s) sep) as Hn.
    destruct (Py.split (String b s) sep) as [|p ps]; [contradiction|].
    destruct (Ascii.eqb a sep); [exact IH|].
    destruct ps as [|q ps]; [discriminate|exact IH].
Qed.

(** X5.  A file of rows, one per line and each line ended by a line feed,
    is read back as exactly those rows, when no row holds a line feed and
    the last row is not empty. *)
Theorem rows_round_trip (rows : list string) :
  rows <> [] ->
  forallb (clean "010") rows = true ->
  last rows EmptyString <> EmptyString ->
  rows_of_text (text_of_rows rows) = rows.
Proof.
  intros Hne Hclean Hlast. unfold rows_of_text.
  assert (R : Py.rstrip (text_of_rows rows) "010" = Py.join newline rows
              /\ Py.join newline rows <> EmptyString).
  { clear Hne. induction rows as [|r rows IH]; [contradiction|].
    simpl in Hclean. apply andb_prop in Hclean.
    destruct Hclean as [Hr Hrows].
    destruct rows as [|r' rows].
    - simpl in Hlast. unfold text_of_rows, Py.join. simpl.
      unfold newline. rewrite rstrip_app_sep, (rstrip_clean r _ Hr).
      now split.
    - assert (Hlast' : last (r' :: rows) EmptyString <> EmptyString)
        by exact Hlast.
      destruct (IH Hrows Hlast') as [IH1 IH2].
      split.
      + change (text_of_rows (r :: r' :: rows))
          with ((r ++ newline) ++ (EmptyString ++ text_of_rows (r' :: rows))).
        change (EmptyString ++ text_of_rows (r' :: rows))
          with (text_of_rows (r' :: rows)).
        rewrite rstrip_app; rewrite IH1; [|exact IH2].
        change (Py.join newline (r :: r' :: rows))
          with (r ++ (newline ++ Py.join newline (r' :: rows))).
        apply append_assoc.
      + change (Py.join newline (r :: r' :: rows))
          with (r ++ (newline ++ Py.join newline (r' :: rows))).
        destruct r; discriminate. }
  destruct R as [-> _].
  clear Hlast. induction rows as [|r rows IH]; [contradiction|].
  simpl in Hclean. apply andb_prop in Hclean. destruct Hclean as [Hr Hrows].
  destruct rows as [|r' rows].
  - unfold Py.join. simpl. now apply split_clean.
  - change (Py.join newline (r :: r' :: rows))
      with (r ++ String "010" (Py.join newline (r' :: rows))).
    rewrite (split_clean_sep r _ "010" Hr). f_equal.
    apply IH; [discriminate|exact Hrows].
Qed.

Lemma rows_round_trip_witness :
  rows_of_text (text_of_rows ["#####"; ""; "@@@@@"]) = ["#####"; ""; "@@@@@"].
Proof.
  apply (rows_round_trip ["#####"; ""; "@@@@@"]);
    [discriminate|reflexivity|discriminate].
Defined.

Lemma rstrip_empty (s : string) (ch : ascii) :
  Py.rstrip s ch = EmptyString <->
  forallb (fun c => Ascii.eqb c ch) (list_ascii_of_string s) = true.
Proof.
  induction s as [|c s IH]; simpl; [tauto|].
  destruct (Py.rstrip s ch) as [|d r] eqn:E.
  - destruct (Ascii.eqb c ch); simpl.
    + split; [intros _; now apply IH|reflexivity].
    + split; discriminate.
  - split; [discriminate|]. intros H. apply andb_prop in H.
    destruct H as [_ H]. apply IH in H. discriminate H.
Qed.

Lemma join_split (s : string) (sep : ascii) :
  Py.join (String sep EmptyString) (Py.split s sep) = s.
Proof.
  unfold Py.join. induction s as [|c s IH]; [reflexivity|].
  pose proof (split_not_nil s sep) as Hn. simpl.
  destruct (Ascii.eqb_spec c sep) as [->|N].
  - destruct (Py.split s sep) as [|p ps]; [contradiction|].
    simpl in *. now rewrite IH.
  - destruct (Py.split s sep) as [|p ps]; [contradiction|].
    destruct ps as [|q ps]; simpl in *; now rewrite <- IH.
Qed.

(** X6.  Whatever the text of the file, the rows are the text without the
    line feeds at its end, cut at its line feeds: joined again with line
    feeds they give that text back, and no row holds a line feed.  So
    there is at least one row; a text that is empty or only line feeds
    gives the one empty row; and the last row of any other text is not
    empty: line feeds at the end of the file make no rows. *)
Theorem rows_of_text_shape (text : string) :
  Py.join newline (rows_of_text text) = Py.rstrip text "010"
  /\ Forall (fun row => clean "010" row = true) (rows_of_text text)
  /\ rows_of_text text <> []
  /\ (forallb (fun c => Ascii.eqb c "010") (list_ascii_of_string text) = true ->
      rows_of_text text = [EmptyString])
  /\ (forallb (fun c => Ascii.eqb c "010") (list_ascii_of_string text) = false ->
      last (rows_of_text text) EmptyString <> EmptyString).
Proof.
  unfold rows_of_text.
  split; [apply join_split|].
  split; [apply split_parts_clean|].
  split; [apply split_not_nil|].
  split.
  - intros H. apply rstrip_empty in H. now rewrite H.
  - intros H.
    destruct (rstrip_last text "010") as [E|(c & Hl & Hc)].
    + apply rstrip_empty in E. congruence.
    + exact (split_last _ _ c Hl Hc).
Qed.

Lemma rows_of_text_shape_witness :
  rows_of_text (newline ++ newline) = [EmptyString]
  /\ last (rows_of_text ("ab" ++ newline ++ newline ++ "cd"
                         ++ newline ++ newline)) EmptyString
     <> EmptyString.
Proof.
  split.
  - apply (rows_of_text_shape (newline ++ newline)). reflexivity.
  - apply (rows_of_text_shape ("ab" ++ newline ++ newline ++ "cd"
                               ++ newline ++ newline)). reflexivity.
Defined.

(* ===================================================================== *)
(** ** Rows and canvas *)
(* ===================================================================== *)

Lemma enumerate_from_in {A} (xs : list A) (k i : Z) (x : A) :
  In (i, x) (Py.enumerate_from k xs) ->
  k <= i < k + Z.of_nat (List.length xs).
Proof.
  revert k. induction xs as [|y xs IH]; intros k; simpl; [intros []|].
  intros [H|H].
  - injection H as <- _. lia.
  - specialize (IH _ H). lia.
Qed.

(** X7.  When the text grid has no more rows than the grid fitting allows,
    [canvas_h // char_h], every line that the loop draws lies within the
    height of the canvas: it starts at x = 0 and at a y of at least 0, and
    its cell ends at or above the lower edge. *)
Theorem rows_fit_canvas (img : Image) (lines : list string)
        (char_h canvas_h : Z) (font_ : Font) (fg : list Z) (call : TextCall) :
  0 < char_h ->
  Z.of_nat (List.length lines) <= canvas_h / char_h ->
  In call (im_texts (draw_ascii_art img lines char_h font_ fg)) ->
  In call (im_texts img)
  \/ (fst (tc_xy call) = 0
      /\ 0 <= snd (tc_xy call)
      /\ snd (tc_xy call) + char_h <= canvas_h).
Proof.
  intros Hh Hrows Hin.
  destruct (draw_rows char_h font_ fg (Py.enumerate lines) img) as (Ht & _).
  unfold draw_ascii_art in Hin. rewrite Ht in Hin.
  apply in_app_or in Hin. destruct Hin as [Hin|Hin]; [now left|].
  right. apply in_map_iff in Hin. destruct Hin as ([i line] & <- & Hi).
  apply enumerate_from_in in Hi. simpl.
  pose proof (Z.mul_div_le canvas_h char_h Hh).
  split; [reflexivity|]. split; nia.
Qed.

Lemma rows_fit_canvas_witness :
  Forall (fun call => fst (tc_xy call) = 0 /\ 0 <= snd (tc_xy call)
                      /\ snd (tc_xy call) + 25 <= 50)
         (im_texts (draw_ascii_art
                      {| im_mode := "RGB"; im_size := (100, 50);
                         im_color := [0; 0; 0]; im_texts := [] |}
                      ["#####"; "@@@@@"] 25
                      {| font_file := "TerminusTTF.ttf"; font_size := 12 |}
                      [255; 255; 255])).
Proof.
  apply Forall_forall. intros call Hin.
  assert (H0 : 0 < 25) by lia.
  assert (H1 : Z.of_nat (List.length ["#####"; "@@@@@"]) <= 50 / 25)
    by (vm_compute; discriminate).
  destruct (rows_fit_canvas _ _ 25 50 _ _ call H0 H1 Hin) as [[]|H].
  exact H.
Defined.

(* ===================================================================== *)
(** ** Whole runs *)
(* ===================================================================== *)














(* ===================================================================== *)
(** ** The external tools and the saving of the image *)
(* ===================================================================== *)





(** X15.  When [magick] cannot be started at all (an exception other than
    [CalledProcessError], as the [FileNotFoundError] of a missing program),
    nothing handles it: the exception ends the run, with no message of the
    script. *)
Theorem missing_tool_is_not_handled (w : World) (args : Namespace)
        (canvas_w canvas_h char_w char_h : Z) (log : list event)
        (cmd : list string) (e : exception) :
  ascii_cmd args canvas_w canvas_h char_w char_h (tmpdir w) (cropped_path w)
  = Ok cmd ->
  returncode w (resize_cmd args canvas_w canvas_h (cropped_path w)) = Raise e ->
  is_CalledProcessError e = false ->
  convert w args canvas_w canvas_h char_w char_h log
  = (Exc e,
     (log ++ [Subprocess (resize_cmd args canvas_w canvas_h
                                     (cropped_path w))])%list).
Proof.
  intros Hcmd R1 He. unfold convert. fold (cropped_path w). rewrite Hcmd.
  run_script. rewrite R1, He. reflexivity.
Qed.

Lemma missing_tool_is_not_handled_witness :
  convert (with_returncode Sample.world
             (fun _ => Raise (FileNotFoundError "magick")))
          (Sample.args "out.png") 100 50 20 25 []
  = (Exc (FileNotFoundError "magick"),
     [Subprocess ["magick"; "art.png"; "-resize"; "100x50^"; "-gravity";
                  "center"; "-extent"; "100x50"; "/tmp/tmpk3v9/cropped"]]).
Proof.
  apply (missing_tool_is_not_handled
           (with_returncode Sample.world
              (fun _ => Raise (FileNotFoundError "magick")))
           (Sample.args "out.png") 100 50 20 25 []
           ["ascii-image-converter"; "--only-save"; "--dimensions"; "5,2";
            "--save-txt"; "/tmp/tmpk3v9"; "/tmp/tmpk3v9/cropped"]
           (FileNotFoundError "magick")); reflexivity.
Defined.

(** The command of the converter is not that of [magick]. *)
Lemma ascii_cmd_is_not_resize_cmd (args : Namespace)
      (canvas_w canvas_h char_w char_h : Z) (tmpdir_ : string)
      (cropped : Path.t) (cmd : list string) :
  ascii_cmd args canvas_w canvas_h char_w char_h tmpdir_ cropped = Ok cmd ->
  cmd <> resize_cmd args canvas_w canvas_h cropped.
Proof.
  unfold ascii_cmd, Py.floordiv, resize_cmd.
  destruct (char_w =? 0); [discriminate|].
  destruct (char_h =? 0); [discriminate|].
  cbn [rbind]. destruct (braille args); intros H; injection H as <-;
    discriminate.
Qed.

(** X16.  In the conversion step the converter is started only after
    [magick] returned 0, and rows come back only when both tools returned 0
    and the text file could be read; the rows are then those of that
    file. *)
Theorem converter_runs_after_magick (w : World) (args : Namespace)
        (canvas_w canvas_h char_w char_h : Z) (cmd : list string)
        (o : outcome (list string)) (log : list event) :
  ascii_cmd args canvas_w canvas_h char_w char_h (tmpdir w) (cropped_path w)
  = Ok cmd ->
  convert w args canvas_w canvas_h char_w char_h [] = (o, log) ->
  (In (Subprocess cmd) log ->
   returncode w (resize_cmd args canvas_w canvas_h (cropped_path w)) = Ok 0)
  /\ (forall lines,
        o = Val lines ->
        returncode w (resize_cmd args canvas_w canvas_h (cropped_path w)) = Ok 0
        /\ returncode w cmd = Ok 0
        /\ exists text, read_text w (txt_path w) = Ok text
                        /\ lines = rows_of_text text).
Proof.
  intros Hcmd.
  pose proof (ascii_cmd_is_not_resize_cmd _ _ _ _ _ _ _ _ Hcmd) as Hne.
  unfold convert. fold (cropped_path w) (txt_path w).
  rewrite Hcmd. run_script.
  destruct (returncode w (resize_cmd args canvas_w canvas_h (cropped_path w)))
    as [rc1|e1].
  - destruct (Z.eqb_spec rc1 0) as [->|N1].
    + destruct (returncode w cmd) as [rc2|e2].
      * destruct (Z.eqb_spec rc2 0) as [->|N2].
        -- destruct (read_text w (txt_path w)) as [text|e3]; intros H;
             injection H as <- <-; (split; [reflexivity|]);
             intros lines HV; [|discriminate].
           injection HV as <-. repeat split. now exists text.
        -- cbn [is_CalledProcessError]. intros H; injection H as <- <-.
           split; [reflexivity|discriminate].
      * destruct (is_CalledProcessError e2); intros H; injection H as <- <-;
          (split; [reflexivity|discriminate]).
    + cbn [is_CalledProcessError]. intros H; injection H as <- <-.
      split; [|discriminate].
      simpl. intros [H|[H|[]]]; [|discriminate].
      injection H as H. now contradiction Hne.
  - destruct (is_CalledProcessError e1); intros H; injection H as <- <-;
      (split; [|discriminate]); simpl.
    + intros [H|[H|[]]]; [|discriminate].
      injection H as H. now contradiction Hne.
    + intros [H|[]]. injection H as H. now contradiction Hne.
Qed.

Lemma converter_runs_after_magick_witness :
  returncode Sample.world
             (resize_cmd (Sample.args "out.png") 100 50
                         (cropped_path Sample.world)) = Ok 0
  /\ returncode Sample.world
                ["ascii-image-converter"; "--only-save"; "--dimensions"; "5,2";
                 "--save-txt"; "/tmp/tmpk3v9"; "/tmp/tmpk3v9/cropped"] = Ok 0
  /\ exists text,
       read_text Sample.world (txt_path Sample.world) = Ok text
       /\ ["#####"; "@@@@@"] = rows_of_text text.
Proof.
  destruct (converter_runs_after_magick Sample.world (Sample.args "out.png")
              100 50 20 25
              ["ascii-image-converter"; "--only-save"; "--dimensions"; "5,2";
               "--save-txt"; "/tmp/tmpk3v9"; "/tmp/tmpk3v9/cropped"]
              _ _ eq_refl eq_refl) as [_ H].
  exact (H _ eq_refl).
Defined.



(* ===================================================================== *)
(** ** Success and exit status *)
(* ===================================================================== *)

Section Quiet.

Variable S : Z -> Prop.

Lemma quiet_ret {A} (a : A) : quiet S (ret a).
Proof.
  intros log. exists []. simpl. split; [now rewrite app_nil_r|].
  split; [intros ev []|exact I].
Qed.

Lemma quiet_raise {A} (e : exception) : quiet S (@raise A e).
Proof.
  intros log. exists []. simpl. split; [now rewrite app_nil_r|].
  split; [intros ev []|exact I].
Qed.

Lemma quiet_lift {A} (r : result A) : quiet S (lift r).
Proof. destruct r; [apply quiet_ret|apply quiet_raise]. Qed.

Lemma quiet_emit (e : event) : ~ product e -> quiet S (emit e).
Proof.
  intros H log. exists [e]. simpl. split; [reflexivity|].
  split; [|exact I]. now intros ev [<-|[]].
Qed.

Lemma quiet_bind {A B} (m : M A) (k : A -> M B) :
  quiet S m -> (forall a, quiet S (k a)) -> quiet S (bind m k).
Proof.
  intros Hm Hk log. unfold bind.
  destruct (Hm log) as (added1 & E1 & P1 & Q1).
  destruct (m log) as [[a|e|c] log1]; simpl in E1, Q1; subst log1.
  - destruct (Hk a (log ++ added1)%list) as (added2 & E2 & P2 & Q2).
    exists (added1 ++ added2)%list. rewrite E2, app_assoc.
    split; [reflexivity|]. split; [|exact Q2].
    intros ev Hin. apply in_app_or in Hin. destruct Hin; auto.
  - exists added1. now repeat split.
  - exists added1. now repeat split.
Qed.

Lemma quiet_exit {A} (text : string) (c : Z) :
  S c -> quiet S (bind (eprint text) (fun _ => @sys_exit A c)).
Proof.
  intros Hc log. exists [Stderr text]. simpl. split; [reflexivity|].
  split; [|exact Hc]. now intros ev [<-|[]].
Qed.

Lemma quiet_when (c : bool) (m : M unit) : quiet S m -> quiet S (when c m).
Proof. destruct c; simpl; [trivial|intros _; apply quiet_ret]. Qed.

Lemma quiet_try_catch {A} (body : M A) (handles : exception -> bool)
      (handler : exception -> M A) :
  quiet S body -> (forall e, quiet S (handler e)) ->
  quiet S (try_catch body handles handler).
Proof.
  intros Hb Hh log. unfold try_catch.
  destruct (Hb log) as (added1 & E1 & P1 & Q1).
  destruct (body log) as [[a|e|c] log1]; simpl in E1, Q1; subst log1.
  - exists added1. now repeat split.
  - destruct (handles e).
    + destruct (Hh e (log ++ added1)%list) as (added2 & E2 & P2 & Q2).
      exists (added1 ++ added2)%list. rewrite E2, app_assoc.
      split; [reflexivity|]. split; [|exact Q2].
      intros ev Hin. apply in_app_or in Hin. destruct Hin; auto.
    + exists added1. now repeat split.
  - exists added1. now repeat split.
Qed.

End Quiet.

Section QuietScript.

Variable w : World.

Lemma quiet_check_input args : quiet (eq 1) (check_input w args).
Proof.
  unfold check_input.
  apply quiet_bind; [|intros _]; apply quiet_when, quiet_exit; reflexivity.
Qed.

Lemma quiet_resolve_output args : quiet (eq 1) (resolve_output w args).
Proof.
  unfold resolve_output.
  apply quiet_bind; [apply quiet_when, quiet_exit; reflexivity|intros _].
  apply quiet_bind.
  - destruct (negb _); [|apply quiet_ret].
    apply quiet_bind; [|intros _; apply quiet_ret].
    apply quiet_emit. exact (fun f => f).
  - intros p. apply quiet_bind; [|intros _; apply quiet_ret].
    apply quiet_when, quiet_exit; reflexivity.
Qed.

Lemma quiet_load_font args : quiet (eq 1) (load_font w args).
Proof.
  unfold load_font. apply quiet_try_catch; [apply quiet_lift|].
  intros e. apply quiet_exit. reflexivity.
Qed.

Lemma quiet_subprocess_run cmd : quiet (eq 1) (subprocess_run w cmd).
Proof.
  unfold subprocess_run.
  apply quiet_bind; [apply quiet_emit; exact (fun f => f)|intros _].
  apply quiet_bind; [apply quiet_lift|intros rc].
  destruct (rc =? 0); [apply quiet_ret|apply quiet_raise].
Qed.

Lemma quiet_convert args canvas_w canvas_h char_w char_h :
  quiet (eq 1) (convert w args canvas_w canvas_h char_w char_h).
Proof.
  unfold convert. apply quiet_bind; [apply quiet_lift|intros cmd].
  apply quiet_bind.
  - apply quiet_try_catch.
    + apply quiet_bind; [|intros _]; apply quiet_subprocess_run.
    + intros e. apply quiet_exit. reflexivity.
  - intros _. apply quiet_bind; [apply quiet_lift|intros text].
    apply quiet_ret.
Qed.

Lemma unfinished_quiet (added : list event) :
  (forall ev, In ev added -> ~ product ev) -> unfinished w added.
Proof.
  intros H. split.
  - intros text Hin. exact (H _ Hin I).
  - intros (p & img & Hin). exact (False_ind _ (H _ Hin I)).
Qed.

Lemma unfinished_app (added1 added2 : list event) :
  (forall ev, In ev added1 -> ~ product ev) ->
  unfinished w added2 -> unfinished w (added1 ++ added2)%list.
Proof.
  intros H1 [H2 H3]. split.
  - intros text Hin. apply in_app_or in Hin. destruct Hin as [Hin|Hin].
    + exact (H1 _ Hin I).
    + exact (H2 _ Hin).
  - intros (p & img & Hin). apply in_app_or in Hin. destruct Hin as [Hin|Hin].
    + exact (False_ind _ (H1 _ Hin I)).
    + apply H3. now exists p, img.
Qed.

Lemma concluding_bind {A B} (S : Z -> Prop) (m : M A) (k : A -> M B) :
  quiet S m -> (forall a, concluding w S (k a)) -> concluding w S (bind m k).
Proof.
  intros Hm Hk log. unfold bind.
  destruct (Hm log) as (added1 & E1 & P1 & Q1).
  destruct (m log) as [[a|e|c] log1]; simpl in E1, Q1; subst log1.
  - destruct (Hk a (log ++ added1)%list) as (added2 & E2 & P2).
    exists (added1 ++ added2)%list. rewrite E2, app_assoc.
    split; [reflexivity|].
    destruct (fst (k a (log ++ added1)%list)).
    + destruct P2 as [(p & img & Hs) (text & Ht)]. split.
      * exists p, img. apply in_or_app. now right.
      * exists text. apply in_or_app. now right.
    + now apply unfinished_app.
    + destruct P2 as [Hc P2]. split; [exact Hc|]. now apply unfinished_app.
  - exists added1. split; [reflexivity|]. now apply unfinished_quiet.
  - exists added1. split; [reflexivity|].
    split; [exact Q1|]. now apply unfinished_quiet.
Qed.


Lemma concluding_save_image output_path img :
  concluding w (eq 1) (save_image w output_path img).
Proof.
  intros log. unfold save_image. run_script.
  destruct (save w output_path img) as [u|e] eqn:Hsave.
  - destruct (stdout_write w _) as [u'|e] eqn:Hout.
    + eexists. split; [cbn [snd]; rewrite <- app_assoc; reflexivity|].
      cbn [fst]. split.
      * exists output_path, img. simpl. tauto.
      * eexists. simpl. right. left. reflexivity.
    + assert (U : forall extra,
                 (forall ev, In ev extra -> ~ product ev) ->
                 unfinished w (Saved output_path img :: extra)).
      { intros extra Hx. split.
        - intros text [Hin|Hin]; [discriminate Hin|exact (Hx _ Hin I)].
        - intros _. eexists. exists e. exact Hout. }
      destruct e; cbn [is_PermissionError is_ValueError is_OSError fst snd];
        first [ exists [Saved output_path img];
                split; [reflexivity|]; apply U; intros ev []
              | eexists; split; [rewrite <- app_assoc; reflexivity|];
                split; [reflexivity|]; apply U;
                intros ev [<-|[]]; exact (fun f => f) ].
  - destruct e; cbn [is_PermissionError is_ValueError is_OSError fst snd];
      first [ exists []; split; [now rewrite app_nil_r|];
              apply unfinished_quiet; intros ev []
            | eexists; split; [reflexivity|]; split; [reflexivity|];
              apply unfinished_quiet; intros ev [<-|[]]; exact (fun f => f) ].
Qed.

Lemma concluding_render args canvas_w canvas_h output_path :
  concluding w (eq 1) (render w args canvas_w canvas_h output_path).
Proof.
  unfold render. apply concluding_bind; [apply quiet_load_font|intros font_].
  apply concluding_bind; [apply quiet_lift|intros img].
  destruct (textbbox w (0, 0) "A" font_) as [[[x0 y0] x1] y1].
  apply concluding_bind; [apply quiet_convert|intros lines].
  apply concluding_save_image.
Qed.

Lemma concluding_main args : concluding w (eq 1) (main w args).
Proof.
  unfold main. apply concluding_bind; [apply quiet_check_input|intros _].
  apply concluding_bind; [apply quiet_lift|intros [canvas_w canvas_h]].
  apply concluding_bind; [apply quiet_resolve_output|intros output_path].
  apply concluding_render.
Qed.

End QuietScript.

(* ===================================================================== *)
(** ** The argument parser *)
(* ===================================================================== *)

Lemma parses_ret {A} (a : A) : parses (ret a).
Proof. intros log. left. now exists a. Qed.

Lemma parses_parser_error {A} : parses (@parser_error A).
Proof. intros log. now right. Qed.

Lemma parses_bind {A B} (m : M A) (k : A -> M B) :
  parses m -> (forall a, parses (k a)) -> parses (bind m k).
Proof.
  intros Hm Hk log. unfold bind.
  destruct (Hm log) as [(a & ->)| ->]; [apply Hk|now right].
Qed.

Lemma parses_required {A} (o : option A) : parses (required o).
Proof. destruct o; [apply parses_ret|apply parses_parser_error]. Qed.

Lemma parses_get_value {A} (type_func : string -> result A) (s : string) :
  (forall e, type_func s = Raise e -> argparse_handles e) ->
  parses (get_value type_func s).
Proof.
  intros H. unfold get_value.
  destruct (type_func s) as [a|e]; [apply parses_ret|].
  specialize (H e eq_refl).
  destruct e; try contradiction; apply parses_parser_error.
Qed.

Lemma parse_resolution_handled (s : string) (e : exception) :
  parse_resolution s = Raise e -> argparse_handles e.
Proof.
  rewrite parse_resolution_parts.
  destruct (Py.split (Py.lower s) "x") as [|a [|b [|c r]]];
    try (intros H; injection H as <-; exact I).
  destruct (Py.int a); [|intros H; injection H as <-; exact I].
  destruct (Py.int b); [discriminate|].
  intros H; injection H as <-; exact I.
Qed.

Lemma int_handled (s : string) (e : exception) :
  Py.int s = Raise e -> argparse_handles e.
Proof.
  intros H. apply int_literal_raise in H.
  destruct H as [->|[-> _]]; exact I.
Qed.

Lemma hex_to_rgb_handled (s : string) (e : exception) :
  hex_to_rgb s = Raise e -> argparse_handles e.
Proof.
  unfold hex_to_rgb.
  destruct (negb _); [intros H; injection H as <-; exact I|].
  cbn [mapM rbind].
  repeat match goal with
         | |- context [Py.int16 ?g] =>
             let E := fresh "E" in
             destruct (Py.int16 g) eqn:E; cbn [rbind];
             [|intros H; injection H as <-;
               rewrite (int16_raise _ _ E); exact I]
         end.
  discriminate.
Qed.

Lemma parses_parse_args (cl : CommandLine) : parses (parse_args cl).
Proof.
  unfold parse_args.
  apply parses_bind; [apply parses_required|intros input_].
  apply parses_bind.
  { destruct (opt_preset cl) as [p|]; [|apply parses_ret].
    destruct (Py.contains (Py.keys PRESETS) p);
      [apply parses_ret|apply parses_parser_error]. }
  intros preset_. apply parses_bind.
  { destruct (opt_resolution cl) as [r|]; [|apply parses_ret].
    apply parses_bind; [|intros v; apply parses_ret].
    apply parses_get_value, parse_resolution_handled. }
  intros resolution_. apply parses_bind.
  { destruct preset_, resolution_;
      try apply parses_ret; apply parses_parser_error. }
  intros _. apply parses_bind.
  { destruct (opt_size cl); [|apply parses_ret].
    apply parses_get_value, int_handled. }
  intros size_.
  apply parses_bind; [apply parses_get_value, hex_to_rgb_handled|intros c_].
  apply parses_bind; [apply parses_get_value, hex_to_rgb_handled|intros b_].
  apply parses_bind; [apply parses_required|intros output_].
  apply parses_ret.
Qed.

Lemma required_inv {A} (o : option A) log a log' :
  required o log = (Val a, log') -> o = Some a.
Proof.
  destruct o as [x|]; [|discriminate].
  intros H. apply ret_inv in H. now destruct H as [-> _].
Qed.

Lemma get_value_inv {A} (type_func : string -> result A) s log a log' :
  get_value type_func s log = (Val a, log') -> type_func s = Ok a.
Proof.
  unfold get_value. destruct (type_func s) as [x|e].
  - intros H. apply ret_inv in H. now destruct H as [-> _].
  - destruct e; discriminate.
Qed.

(** What a successful [parse_args] tells of the command line. *)
Lemma parse_args_inv (cl : CommandLine) log args log' :
  parse_args cl log = (Val args, log') ->
  opt_input cl = Some (input args)
  /\ opt_output cl = Some (output args)
  /\ ((exists p, opt_preset cl = Some p /\ preset args = Some p
                 /\ Py.contains (Py.keys PRESETS) p = true
                 /\ opt_resolution cl = None /\ resolution args = None)
      \/ (exists r wh, opt_resolution cl = Some r
                       /\ resolution args = Some wh
                       /\ parse_resolution r = Ok wh
                       /\ opt_preset cl = None /\ preset args = None))
  /\ match opt_size cl with
     | Some s => Py.int s = Ok (size args)
     | None => size args = 12
     end
  /\ hex_to_rgb (with_default (opt_color cl) "ffffff") = Ok (color args)
  /\ hex_to_rgb (with_default (opt_bg cl) "000000") = Ok (bg args)
  /\ font args = with_default (opt_font cl) "TerminusTTF.ttf"
  /\ braille args = opt_braille cl.
Proof.
  intros H. unfold parse_args in H.
  apply bind_Val_inv in H. destruct H as (input_ & l1 & Hi & H).
  apply bind_Val_inv in H. destruct H as (preset_ & l2 & Hp & H).
  apply bind_Val_inv in H. destruct H as (resolution_ & l3 & Hr & H).
  apply bind_Val_inv in H. destruct H as (u & l4 & Hex & H).
  apply bind_Val_inv in H. destruct H as (size_ & l5 & Hs & H).
  apply bind_Val_inv in H. destruct H as (color_ & l6 & Hc & H).
  apply bind_Val_inv in H. destruct H as (bg_ & l7 & Hb & H).
  apply bind_Val_inv in H. destruct H as (output_ & l8 & Ho & H).
  apply ret_inv in H. destruct H as [<- _]. cbn.
  split; [exact (required_inv _ _ _ _ Hi)|].
  split; [exact (required_inv _ _ _ _ Ho)|].
  split.
  - destruct (opt_preset cl) as [p|].
    + destruct (Py.contains (Py.keys PRESETS) p) eqn:Hk; [|discriminate Hp].
      apply ret_inv in Hp. destruct Hp as [<- _].
      destruct resolution_ as [wh|]; [discriminate Hex|].
      left. exists p. repeat split; try assumption.
      destruct (opt_resolution cl) as [r|]; [|reflexivity].
      apply bind_Val_inv in Hr. destruct Hr as (v & l & _ & Hr).
      apply ret_inv in Hr. destruct Hr as [Hr _]. discriminate Hr.
    + apply ret_inv in Hp. destruct Hp as [<- _].
      destruct resolution_ as [wh|]; [|discriminate Hex].
      right. destruct (opt_resolution cl) as [r|].
      * apply bind_Val_inv in Hr. destruct Hr as (v & l & Hv & Hr).
        apply ret_inv in Hr. destruct Hr as [Hr _]. injection Hr as ->.
        exists r, wh. repeat split. exact (get_value_inv _ _ _ _ _ Hv).
      * apply ret_inv in Hr. destruct Hr as [Hr _]. discriminate Hr.
  - split.
    + destruct (opt_size cl) as [s|].
      * exact (get_value_inv _ _ _ _ _ Hs).
      * apply ret_inv in Hs. now destruct Hs as [<- _].
    + split; [exact (get_value_inv _ _ _ _ _ Hc)|].
      split; [exact (get_value_inv _ _ _ _ _ Hb)|now split].
Qed.

Lemma parses_read_options (before : CommandLine) :
  parses (read_options before).
Proof.
  unfold read_options.
  apply parses_bind.
  { destruct (opt_preset before) as [p|]; [|apply parses_ret].
    destruct (Py.contains (Py.keys PRESETS) p);
      [apply parses_ret|apply parses_parser_error]. }
  intros preset_. apply parses_bind.
  { destruct (opt_resolution before) as [r|]; [|apply parses_ret].
    apply parses_bind; [|intros v; apply parses_ret].
    apply parses_get_value, parse_resolution_handled. }
  intros resolution_. apply parses_bind.
  { destruct preset_, resolution_;
      try apply parses_ret; apply parses_parser_error. }
  intros _. apply parses_bind.
  { destruct (opt_size before); [|apply parses_ret].
    apply parses_bind; [|intros v; apply parses_ret].
    apply parses_get_value, int_handled. }
  intros _. apply parses_bind.
  { destruct (opt_color before); [|apply parses_ret].
    apply parses_bind; [|intros v; apply parses_ret].
    apply parses_get_value, hex_to_rgb_handled. }
  intros _.
  destruct (opt_bg before); [|apply parses_ret].
  apply parses_bind; [|intros v; apply parses_ret].
  apply parses_get_value, hex_to_rgb_handled.
Qed.

(** The three ends of the parser. *)
Lemma parse_invocation_cases (inv : Invocation) (log : list event) :
  parser_returns inv log \/ parser_rejects inv log \/ parser_helps inv log.
Proof.
  destruct inv as [cl|before].
  - destruct (parses_parse_args cl log) as [(args & H)|H].
    + left. now exists cl, args.
    + right. left. exact H.
  - unfold parser_rejects, parser_helps. simpl. unfold bind.
    destruct (parses_read_options before log) as [([] & ->)| ->].
    + right. right. now exists before.
    + right. left. reflexivity.
Qed.


(** X19.  After a successful parse exactly one of the preset and the
    resolution is set, the canvas of line 80 is defined, being the pair of
    the preset or the parsed resolution, and both colours have three
    channels. *)
Theorem parsed_arguments_are_complete (cl : CommandLine) (log log' : list event)
        (args : Namespace) :
  parse_args cl log = (Val args, log') ->
  (exists canvas,
     canvas_size args = Ok canvas
     /\ ((exists p, opt_preset cl = Some p /\ opt_resolution cl = None
                    /\ Py.getitem PRESETS p = Ok canvas)
         \/ (exists r, opt_resolution cl = Some r /\ opt_preset cl = None
                       /\ parse_resolution r = Ok canvas)))
  /\ List.length (color args) = 3%nat
  /\ List.length (bg args) = 3%nat.
Proof.
  intros H.
  destruct (parse_args_inv cl log args log' H)
    as (_ & _ & Hsel & _ & Hc & Hb & _).
  split; [|split; [exact (hex_to_rgb_length _ _ Hc)
                  |exact (hex_to_rgb_length _ _ Hb)]].
  destruct Hsel as [(p & Hop & Hp & Hk & Hor & Hr)|(r & wh & Hor & Hr & Hv & Hop & Hp)].
  - apply contains_presets in Hk. unfold canvas_size. rewrite Hp.
    destruct Hk as [ -> | [ -> | -> ] ].
    + exists (1920, 1080). split; [reflexivity|]. left. exists "1080p".
      now repeat split.
    + exists (1280, 720). split; [reflexivity|]. left. exists "720p".
      now repeat split.
    + exists (3840, 2160). split; [reflexivity|]. left. exists "4k".
      now repeat split.
  - exists wh. unfold canvas_size. rewrite Hp, Hr. cbn.
    destruct wh as [cw ch]. split; [reflexivity|].
    right. exists r. now repeat split.
Qed.

Lemma parsed_arguments_are_complete_witness :
  exists args,
    parse_args (Sample.command_line "0x-5" "out.png") [] = (Val args, [])
    /\ canvas_size args = Ok (0, -5)
    /\ List.length (color args) = 3%nat.
Proof.
  eexists. split; [reflexivity|].
  destruct (parsed_arguments_are_complete
              (Sample.command_line "0x-5" "out.png") [] [] _ eq_refl)
    as ((canvas & Hc & _) & Hl & _).
  split; [reflexivity|exact Hl].
Defined.

Lemma read_options_Val (before : CommandLine) log u log' :
  read_options before log = (Val u, log') ->
  opt_preset before = None \/ opt_resolution before = None.
Proof.
  intros H. unfold read_options in H.
  apply bind_Val_inv in H. destruct H as (preset_ & l1 & Hp & H).
  apply bind_Val_inv in H. destruct H as (resolution_ & l2 & Hr & H).
  apply bind_Val_inv in H. destruct H as (u' & l3 & Hex & _).
  destruct (opt_preset before) as [p|]; [|now left].
  destruct (opt_resolution before) as [r|]; [|now right].
  destruct (Py.contains (Py.keys PRESETS) p); [|discriminate Hp].
  apply ret_inv in Hp. destruct Hp as [<- _].
  apply bind_Val_inv in Hr. destruct Hr as (v & l & _ & Hr).
  apply ret_inv in Hr. destruct Hr as [<- _]. discriminate Hex.
Qed.

(** X20.  A command line without a help option that has both a preset and
    a resolution, or neither, ends in the parser error with status 2,
    whatever the other options.  When both stand before a help option the
    parser error comes too, and no help. *)
Theorem preset_xor_resolution (cl : CommandLine) (log : list event) :
  (opt_preset cl <> None /\ opt_resolution cl <> None ->
   parser_rejects (Plain cl) log /\ parser_rejects (HelpAfter cl) log)
  /\ (opt_preset cl = None /\ opt_resolution cl = None ->
      parser_rejects (Plain cl) log).
Proof.
  assert (P : (opt_preset cl <> None /\ opt_resolution cl <> None)
              \/ (opt_preset cl = None /\ opt_resolution cl = None) ->
              parser_rejects (Plain cl) log).
  { intros Hsel. unfold parser_rejects. simpl.
    destruct (parses_parse_args cl log) as [(args & H)|H]; [|exact H].
    destruct (parse_args_inv cl log args log H) as (_ & _ & Hone & _).
    destruct Hone
      as [(p & Hop & _ & _ & Hor & _)|(r & wh & Hor & _ & _ & Hop & _)];
      destruct Hsel as [[N1 N2]|[E1 E2]]; congruence. }
  split.
  - intros Hboth. split; [apply P; now left|].
    unfold parser_rejects. simpl. unfold bind.
    destruct (parses_read_options cl log) as [(u & H)|H]; rewrite H;
      [|reflexivity].
    destruct (read_options_Val cl log u log H) as [E|E];
      destruct Hboth; contradiction.
  - intros Hnone. apply P. now right.
Qed.

Lemma preset_xor_resolution_witness :
  parse_invocation
    (Plain (command_line_with (Some "4k") (Some "1920x1080"))) []
  = (SysExit 2, [ArgparseError])
  /\ parse_invocation
       (HelpAfter (command_line_with (Some "4k") (Some "1920x1080"))) []
     = (SysExit 2, [ArgparseError])
  /\ parse_invocation (Plain (command_line_with None None)) []
     = (SysExit 2, [ArgparseError]).
Proof.
  destruct (preset_xor_resolution
              (command_line_with (Some "4k") (Some "1920x1080")) [])
    as [Hboth _].
  destruct (preset_xor_resolution (command_line_with None None) [])
    as [_ Hnone].
  destruct Hboth as [H1 H2]; [split; discriminate|].
  split; [exact H1|]. split; [exact H2|].
  apply Hnone. split; reflexivity.
Defined.

(** X21.  The options that are left out take their defaults: the text is
    white, the background black (the default strings go through
    [hex_to_rgb] like given ones), the size 12 and the font
    [TerminusTTF.ttf]; the input and output paths and the braille flag are
    passed on as given. *)
Theorem defaults_of_parse_args (cl : CommandLine) (log log' : list event)
        (args : Namespace) :
  parse_args cl log = (Val args, log') ->
  (opt_color cl = None -> color args = [255; 255; 255])
  /\ (opt_bg cl = None -> bg args = [0; 0; 0])
  /\ (opt_size cl = None -> size args = 12)
  /\ (opt_font cl = None -> font args = "TerminusTTF.ttf")
  /\ (forall f, opt_font cl = Some f -> font args = f)
  /\ opt_input cl = Some (input args)
  /\ opt_output cl = Some (output args)
  /\ braille args = opt_braille cl.
Proof.
  intros H.
  destruct (parse_args_inv cl log args log' H)
    as (Hi & Ho & _ & Hs & Hc & Hb & Hf & Hbr).
  repeat split; try assumption.
  - intros E. rewrite E in Hc. cbn in Hc. now injection Hc as <-.
  - intros E. rewrite E in Hb. cbn in Hb. now injection Hb as <-.
  - intros E. now rewrite E in Hs.
  - intros E. now rewrite Hf, E.
  - intros f E. now rewrite Hf, E.
Qed.

Lemma defaults_of_parse_args_witness :
  exists args,
    parse_args (command_line_with (Some "720p") None) [] = (Val args, [])
    /\ color args = [255; 255; 255] /\ bg args = [0; 0; 0]
    /\ size args = 12 /\ font args = "TerminusTTF.ttf".
Proof.
  eexists. split; [reflexivity|].
  destruct (defaults_of_parse_args
              (command_line_with (Some "720p") None) [] [] _ eq_refl)
    as (Hc & Hb & Hs & Hf & _).
  split; [apply Hc; reflexivity|].
  split; [apply Hb; reflexivity|].
  split; [apply Hs; reflexivity|apply Hf; reflexivity].
Defined.

(* ===================================================================== *)
(** ** How a run ends *)
(* ===================================================================== *)




(** X23.  When a run ends by [sys.exit], the status given is 0, 1 or 2: 0
    exactly when the argument parser printed the help, 2 exactly when it
    rejected the command line, and 1 when the parser returned the
    arguments and the body of the script found a fault; the body never
    gives another status than 1. *)
Theorem sys_exit_statuses (w : World) (inv : Invocation) (log : list event)
        (c : Z) :
  fst (program w inv log) = SysExit c ->
  (c = 0 /\ parser_helps inv log)
  \/ (c = 2 /\ parser_rejects inv log)
  \/ (c = 1 /\ exists cl args,
                 inv = Plain cl
                 /\ parse_invocation inv log = (Val args, log)
                 /\ fst (main w args log) = SysExit 1).
Proof.
  unfold program, bind.
  destruct (parse_invocation_cases inv log)
    as [(cl & args & Hinv & E)|[E|(before & Hinv & E)]].
  - rewrite E. intros H. right. right.
    destruct (concluding_main w args log) as (added & _ & P).
    rewrite H in P. destruct P as [<- _].
    split; [reflexivity|]. now exists cl, args.
  - pose proof E as E'. unfold parser_rejects in E'. rewrite E'.
    intros H. injection H as <-. right. left. now split.
  - rewrite E. intros H. injection H as <-. left.
    split; [reflexivity|]. now exists before.
Qed.

Lemma sys_exit_statuses_witness :
  fst (program Sample.world (HelpAfter (command_line_with None None)) [])
  = SysExit 0
  /\ parser_helps (HelpAfter (command_line_with None None)) []
  /\ fst (program Sample.world
                  (HelpAfter (command_line_with (Some "480p") None)) [])
     = SysExit 2.
Proof.
  split; [reflexivity|].
  split.
  - destruct (sys_exit_statuses Sample.world
                (HelpAfter (command_line_with None None)) [] 0 eq_refl)
      as [[_ H]|[[H _]|[H _]]]; [exact H|discriminate H|discriminate H].
  - reflexivity.
Defined.
